(** * Task management API: users, sessions and owner-scoped tasks

    A shallow embedding of the Express/Mongoose service of
    [task-management-api]: the JWT middleware [auth] (src/middleware/auth.js),
    the auth router (src/routes/auth.js), the User model (src/unnamed/part_002),
    the Task model (src/models/task.js) and the task router
    (src/unnamed/part_001).

    The MongoDB collections are lists of documents in natural order.  The
    cryptographic and parsing primitives the code calls as libraries
    (jsonwebtoken, bcryptjs, Joi's e-mail check, the schema regex, [Date]
    parsing, the text of the MongoDB server's refusals) are the fields of the
    record [Ext].  Timestamps are integers (milliseconds of [Date.now()]); each
    clock read of the code is a time of its own. *)

From Stdlib Require Import String Ascii List ZArith Bool Lia Sorted Permutation.
Import ListNotations.
Open Scope string_scope.
Open Scope Z_scope.

(** ** JSON values and responses *)

Set Warnings "-register-all".

Inductive json : Type :=
| JNull
| JBool (b : bool)
| JNum (n : Z)
| JStr (s : string)
| JArr (l : list json)
| JObj (kvs : list (string * json)).

(** Property read [o[k]] of a parsed JSON object (keys are unique). *)
Definition obj_get (k : string) (kvs : list (string * json)) : option json :=
  match find (fun kv => String.eqb (fst kv) k) kvs with
  | Some kv => Some (snd kv)
  | None => None
  end.

(** [delete o[k]]. *)
Definition obj_delete (k : string) (kvs : list (string * json))
  : list (string * json) :=
  filter (fun kv => negb (String.eqb (fst kv) k)) kvs.

(** What a route handler does: answer with [res.status(s).json(body)], or
    hand an exception to the global error handler with [next(error)]. *)
Inductive outcome : Type :=
| Respond (status : Z) (body : json)
| Forward (err : string).

Definition err_body (msg : string) : json := JObj [("error", JStr msg)].

(** ** Strings: [String.prototype.replace], [toLowerCase], [trim] *)

Fixpoint strip_prefix (p s : string) : option string :=
  match p, s with
  | EmptyString, _ => Some s
  | String a p', String b s' => if Ascii.eqb a b then strip_prefix p' s' else None
  | String _ _, EmptyString => None
  end.

(** [s.replace(pat, rep)] with a string pattern: only the first occurrence
    of [pat] is replaced. *)
Fixpoint replace_first (pat rep s : string) : string :=
  match strip_prefix pat s with
  | Some rest => rep ++ rest
  | None =>
      match s with
      | EmptyString => EmptyString
      | String c s' => String c (replace_first pat rep s')
      end
  end.

Definition lower_ascii (c : ascii) : ascii :=
  let n := nat_of_ascii c in
  if andb (Nat.leb 65 n) (Nat.leb n 90) then ascii_of_nat (n + 32) else c.

(** [s.toLowerCase()] on ASCII text. *)
Fixpoint js_lower (s : string) : string :=
  match s with
  | EmptyString => EmptyString
  | String c s' => String (lower_ascii c) (js_lower s')
  end.

Definition is_ws (c : ascii) : bool :=
  let n := nat_of_ascii c in
  orb (Nat.eqb n 32) (andb (Nat.leb 9 n) (Nat.leb n 13)).

Fixpoint drop_ws (l : list ascii) : list ascii :=
  match l with
  | [] => []
  | c :: l' => if is_ws c then drop_ws l' else l
  end.

(** [s.trim()] (the schema option [trim: true]) on ASCII text. *)
Definition js_trim (s : string) : string :=
  string_of_list_ascii
    (rev (drop_ws (rev (drop_ws (list_ascii_of_string s))))).

(** The double quote Joi puts around a key in its messages. *)
Definition dq : string := String (ascii_of_nat 34) EmptyString.
Definition label (k : string) : string := dq ++ k ++ dq.

(** ** Library primitives *)

(** The JWT payload [{ _id, email, role }] of [generateAuthToken]. *)
Record Payload : Type := mkPayload {
  p_id : Z;
  p_email : string;
  p_role : string
}.

(** Refusals of a [find] command by the MongoDB server: a [skip] or [limit]
    that is not a non-negative 64-bit integer, and a sort key that is not a
    field path. *)
Inductive db_error : Type :=
| BadSkip (skip : Z)
| BadLimit (limit : Z)
| BadSortKey (key : string).

Record Ext : Type := mkExt {
  (** [jwt.sign(payload, JWT_SECRET, { expiresIn: '7d' })] at a time *)
  jwt_sign : Payload -> Z -> string;
  (** [jwt.verify(token, JWT_SECRET)] at a time; [None] when it throws *)
  jwt_verify : string -> Z -> option Payload;
  (** [bcrypt.hash(password, salt)] *)
  bcrypt_hash : string -> string;
  (** [bcrypt.compare(candidate, hash)] *)
  bcrypt_compare : string -> string -> bool;
  (** Joi's [string().email()] check *)
  joi_email : string -> bool;
  (** the [match] regex of [userSchema.email] *)
  email_regex : string -> bool;
  (** Joi's conversion of a string to a [Date] *)
  date_parse : string -> option Z;
  (** the message of the server's error for a refused command *)
  mongo_error : db_error -> string
}.

(** ** Error monad for validation *)

Definition bind {Err A B : Type} (m : sum Err A) (f : A -> sum Err B)
  : sum Err B :=
  match m with
  | inl e => inl e
  | inr a => f a
  end.

Notation "'let*' x ':=' m 'in' f" := (bind m (fun x => f))
  (at level 200, x name, m at level 100, f at level 200).

(** ** Joi rules *)

Definition joi_string (k : string) (v : json) : sum string string :=
  match v with
  | JStr s =>
      if String.eqb s "" then inl (label k ++ " is not allowed to be empty")
      else inr s
  | _ => inl (label k ++ " must be a string")
  end.

Definition joi_min (k : string) (n : nat) (ns : string) (s : string)
  : sum string string :=
  if Nat.ltb (String.length s) n
  then inl (label k ++ " length must be at least " ++ ns ++ " characters long")
  else inr s.

Definition joi_max (k : string) (n : nat) (ns : string) (s : string)
  : sum string string :=
  if Nat.ltb n (String.length s)
  then inl (label k ++ " length must be less than or equal to " ++ ns
            ++ " characters long")
  else inr s.

Definition joi_valid (k : string) (allowed : list string) (shown : string)
  (v : json) : sum string string :=
  match v with
  | JStr s => if existsb (String.eqb s) allowed then inr s
              else inl (label k ++ " must be one of " ++ shown)
  | _ => inl (label k ++ " must be one of " ++ shown)
  end.

(** [.required()] *)
Definition joi_required {A : Type} (k : string) (kvs : list (string * json))
  (rule : json -> sum string A) : sum string A :=
  match obj_get k kvs with
  | None => inl (label k ++ " is required")
  | Some v => rule v
  end.

(** [.optional()] *)
Definition joi_optional {A : Type} (k : string) (kvs : list (string * json))
  (rule : json -> sum string A) : sum string (option A) :=
  match obj_get k kvs with
  | None => inr None
  | Some v => let* a := rule v in inr (Some a)
  end.

(** [Joi.object({...})] refuses keys it does not list, after the listed
    keys have been checked. *)
Definition joi_unknown (allowed : list string) (kvs : list (string * json))
  : sum string unit :=
  match find (fun kv => negb (existsb (String.eqb (fst kv)) allowed)) kvs with
  | Some kv => inl (label (fst kv) ++ " is not allowed")
  | None => inr tt
  end.

Definition joi_object {A : Type} (body : json)
  (f : list (string * json) -> sum string A) : sum string A :=
  match body with
  | JObj kvs => f kvs
  | _ => inl (label "value" ++ " must be of type object")
  end.

(** ** The User model (src/unnamed/part_002) *)

(** A stored user document; [u_password] holds the bcrypt hash and
    [u_tokens] the [tokens[].token] strings. *)
Record User : Type := mkUser {
  u_id : Z;
  u_name : string;
  u_email : string;
  u_password : string;
  u_role : string;
  u_createdAt : Z;
  u_tokens : list string
}.

Definition set_tokens (u : User) (ts : list string) : User :=
  mkUser (u_id u) (u_name u) (u_email u) (u_password u) (u_role u)
    (u_createdAt u) ts.

(** [user.save()] of a loaded document whose only modified path is
    [tokens]: a [$set] of [tokens] on the stored document with its [_id]. *)
Definition save_tokens (users : list User) (u : User) : list User :=
  map (fun v => if Z.eqb (u_id v) (u_id u) then set_tokens v (u_tokens u) else v)
    users.

Definition payload_of (u : User) : Payload :=
  mkPayload (u_id u) (u_email u) (u_role u).

(** [userSchema.methods.generateAuthToken]: sign [{ _id, email, role }],
    append the token to [this.tokens], save, return the token. *)
Definition generateAuthToken (E : Ext) (users : list User) (u : User) (now : Z)
  : list User * User * string :=
  let token := jwt_sign E (payload_of u) now in
  let u' := set_tokens u ((u_tokens u ++ [token])%list) in
  (save_tokens users u', u', token).

(** [this.toObject()]; [password] is there only when the query selected it
    ([select: false] in the schema, [.select('+password')] in login). *)
Definition toObject (u : User) (with_password : bool) : list (string * json) :=
  [("_id", JNum (u_id u)); ("name", JStr (u_name u)); ("email", JStr (u_email u))]
  ++ (if with_password then [("password", JStr (u_password u))] else [])
  ++ [("role", JStr (u_role u)); ("createdAt", JNum (u_createdAt u));
      ("tokens", JArr (map (fun t => JObj [("token", JStr t)]) (u_tokens u)))].

(** [userSchema.methods.toJSON], used by [res.json] for every user. *)
Definition toJSON (u : User) (with_password : bool) : json :=
  JObj (obj_delete "tokens" (obj_delete "password" (toObject u with_password))).

(** ** The JWT middleware [auth] (src/middleware/auth.js) *)

Inductive guard : Type :=
| GuardOk (user : User) (token : string)
| GuardReject (status : Z) (body : json).

(** Lines 16-29: [jwt.verify], then
    [User.findOne({ _id: decoded._id, 'tokens.token': token })]. *)
Definition auth_verify (E : Ext) (users : list User) (token : string) (now : Z)
  : guard :=
  match jwt_verify E token now with
  | None => GuardReject 401 (err_body "Token is not valid")
  | Some decoded =>
      match find (fun u => andb (Z.eqb (u_id u) (p_id decoded))
                                (existsb (String.eqb token) (u_tokens u))) users with
      | None => GuardReject 401 (err_body "Token is not valid")
      | Some user => GuardOk user token
      end
  end.

(** [auth]: [req.header('Authorization')?.replace('Bearer ', '')], the
    [!token] check, then verification. *)
Definition auth (E : Ext) (users : list User) (header : option string) (now : Z)
  : guard :=
  match header with
  | None => GuardReject 401 (err_body "No token, authorization denied")
  | Some h =>
      let token := replace_first "Bearer " "" h in
      if String.eqb token "" then
        GuardReject 401 (err_body "No token, authorization denied")
      else auth_verify E users token now
  end.

(** A route mounted behind [auth]. *)
Definition protected (E : Ext) (users : list User) (header : option string) (now : Z)
  (handler : list User -> User -> string -> list User * outcome)
  : list User * outcome :=
  match auth E users header now with
  | GuardReject s b => (users, Respond s b)
  | GuardOk u t => handler users u t
  end.

(** ** The auth router (src/routes/auth.js) *)

Definition registerSchema (E : Ext) (body : json)
  : sum string (string * string * string) :=
  joi_object body (fun kvs =>
    let* name := joi_required "name" kvs (fun v =>
      let* s := joi_string "name" v in
      let* s := joi_min "name" 2 "2" s in joi_max "name" 50 "50" s) in
    let* email := joi_required "email" kvs (fun v =>
      let* s := joi_string "email" v in
      if joi_email E s then inr s else inl (label "email" ++ " must be a valid email")) in
    let* password := joi_required "password" kvs (fun v =>
      let* s := joi_string "password" v in joi_min "password" 6 "6" s) in
    let* _ := joi_unknown ["name"; "email"; "password"] kvs in
    inr (name, email, password)).

Definition loginSchema (E : Ext) (body : json) : sum string (string * string) :=
  joi_object body (fun kvs =>
    let* email := joi_required "email" kvs (fun v =>
      let* s := joi_string "email" v in
      if joi_email E s then inr s else inl (label "email" ++ " must be a valid email")) in
    let* password := joi_required "password" kvs (joi_string "password") in
    let* _ := joi_unknown ["email"; "password"] kvs in
    inr (email, password)).

(** [User.findOne({ email })]: Mongoose casts the filter value through the
    schema's [lowercase] setter. *)
Definition findByEmail (users : list User) (email : string) : option User :=
  find (fun u => String.eqb (u_email u) (js_lower email)) users.

(** Mongoose's [ValidationError]: one [path: message] entry per failing
    path (a path reports its first failing validator), joined by [, ] after
    the error's prefix. *)
Fixpoint join (sep : string) (l : list string) : string :=
  match l with
  | [] => ""
  | [x] => x
  | x :: l' => x ++ sep ++ join sep l'
  end.

Definition errors_of (l : list (option string)) : list string :=
  fold_right (fun e acc => match e with Some m => m :: acc | None => acc end) [] l.

Definition validation_error (prefix : string) (l : list (option string)) : option string :=
  match errors_of l with
  | [] => None
  | errs => Some (prefix ++ ": " ++ join ", " errs)
  end.

(** Schema validators of [userSchema] run by [save()] on a new user, after
    the [trim] and [lowercase] setters and before the hashing hook; the
    constructor sets the paths in schema order. *)
Definition validate_user (E : Ext) (name email password : string) : option string :=
  validation_error "User validation failed"
    [if String.eqb name "" then Some "name: Name is required"
     else if Nat.ltb 50 (String.length name) then Some "name: Name cannot exceed 50 characters"
     else None;
     if String.eqb email "" then Some "email: Email is required"
     else if negb (email_regex E email) then Some "email: Please enter a valid email"
     else None;
     if String.eqb password "" then Some "password: Password is required"
     else if Nat.ltb (String.length password) 6 then
       Some "password: Password must be at least 6 characters"
     else None].

(** [new User({ name, email, password })] then [user.save()]: setters,
    validation, the pre-save hook hashing the (modified) password, and the
    insert, which the [unique] index on [email] refuses for a taken email. *)
Definition create_user (E : Ext) (users : list User) (name email password : string)
  (now new_id : Z) : sum string (list User * User) :=
  let name' := js_trim name in
  let email' := js_lower email in
  match validate_user E name' email' password with
  | Some err => inl err
  | None =>
      if existsb (fun v => String.eqb (u_email v) email') users
      then inl "E11000 duplicate key error collection: users index: email_1"
      else
        let u := mkUser new_id name' email' (bcrypt_hash E password) "user" now [] in
        inr ((users ++ [u])%list, u)
  end.

(** [router.post('/register')]. *)
Definition register (E : Ext) (users : list User) (body : json) (now new_id : Z)
  : list User * outcome :=
  match registerSchema E body with
  | inl msg => (users, Respond 400 (err_body msg))
  | inr (name, email, password) =>
      match findByEmail users email with
      | Some _ => (users, Respond 400 (err_body "User already exists with this email"))
      | None =>
          match create_user E users name email password now new_id with
          | inl err => (users, Forward err)
          | inr (users1, u) =>
              let '(users2, u', token) := generateAuthToken E users1 u now in
              (users2, Respond 201 (JObj [("message", JStr "User registered successfully");
                                          ("user", toJSON u' true);
                                          ("token", JStr token)]))
          end
      end
  end.

(** [user.comparePassword(candidate)]. *)
Definition comparePassword (E : Ext) (u : User) (candidate : string) : bool :=
  bcrypt_compare E candidate (u_password u).

(** [router.post('/login')]. *)
Definition login (E : Ext) (users : list User) (body : json) (now : Z)
  : list User * outcome :=
  match loginSchema E body with
  | inl msg => (users, Respond 400 (err_body msg))
  | inr (email, password) =>
      match findByEmail users email with
      | None => (users, Respond 401 (err_body "Invalid credentials"))
      | Some user =>
          if negb (comparePassword E user password)
          then (users, Respond 401 (err_body "Invalid credentials"))
          else
            let '(users1, u', token) := generateAuthToken E users user now in
            (users1, Respond 200 (JObj [("message", JStr "Login successful");
                                        ("user", toJSON u' true);
                                        ("token", JStr token)]))
      end
  end.

(** [router.get('/me', auth, ...)]: [req.user] was loaded by [auth],
    without the [password] path. *)
Definition me (E : Ext) (users : list User) (header : option string) (now : Z)
  : list User * outcome :=
  protected E users header now (fun users u _ =>
    (users, Respond 200 (JObj [("user", toJSON u false)]))).

(** The body of [router.post('/logout', auth, ...)]: drop every entry equal
    to [req.token] from [req.user.tokens] and save. *)
Definition logout_handler (users : list User) (u : User) (token : string)
  : list User * outcome :=
  let u' := set_tokens u (filter (fun t => negb (String.eqb t token)) (u_tokens u)) in
  (save_tokens users u', Respond 200 (JObj [("message", JStr "Logged out successfully")])).

Definition logout (E : Ext) (users : list User) (header : option string) (now : Z)
  : list User * outcome :=
  protected E users header now logout_handler.

(** ** The Task model (src/models/task.js) *)

Record Task : Type := mkTask {
  t_id : Z;
  t_title : string;
  t_description : option string;
  t_status : string;
  t_priority : string;
  t_dueDate : option Z;
  t_owner : Z;
  t_createdAt : Z;
  t_updatedAt : Z
}.

Definition task_statuses : list string := ["pending"; "in-progress"; "completed"].
Definition task_priorities : list string := ["low"; "medium"; "high"].

(** The Mongoose validators of [taskSchema] on the paths of a document or
    of an update ([required], [maxlength], [enum], the [dueDate] validator
    [!value || value > new Date()]). *)
Definition validate_title (s : string) : option string :=
  if String.eqb s "" then Some "title: Task title is required"
  else if Nat.ltb 100 (String.length s)
  then Some "title: Title cannot exceed 100 characters"
  else None.

Definition validate_description (d : option string) : option string :=
  match d with
  | Some s => if Nat.ltb 500 (String.length s)
              then Some "description: Description cannot exceed 500 characters"
              else None
  | None => None
  end.

(** The default message of [enum]. *)
Definition validate_enum (path : string) (allowed : list string) (s : string)
  : option string :=
  if existsb (String.eqb s) allowed then None
  else Some (path ++ ": `" ++ s ++ "` is not a valid enum value for path `" ++ path ++ "`.").

Definition validate_dueDate (now : Z) (d : option Z) : option string :=
  match d with
  | Some v => if Z.ltb now v then None
              else Some "dueDate: Due date must be in the future"
  | None => None
  end.

(** [task.save()] of a new task: validation (the constructor set the paths
    in schema order), with [new Date()] of the [dueDate] validator read at
    [now_v], then the pre-save hook [this.updatedAt = new Date()] at [now_h]. *)
Definition save_new_task (now_v now_h : Z) (t : Task) : sum string Task :=
  match validation_error "Task validation failed"
          [validate_title (t_title t); validate_description (t_description t);
           validate_enum "status" task_statuses (t_status t);
           validate_enum "priority" task_priorities (t_priority t);
           validate_dueDate now_v (t_dueDate t)] with
  | Some err => inl err
  | None =>
      inr (mkTask (t_id t) (t_title t) (t_description t) (t_status t) (t_priority t)
             (t_dueDate t) (t_owner t) (t_createdAt t) now_h)
  end.

(** ** The task router (src/unnamed/part_001) *)

(** The value [taskSchema.validate(req.body)] returns: exactly the keys the
    body supplied, [dueDate] converted to a date. *)
Record TaskInput : Type := mkTaskInput {
  ti_title : string;
  ti_description : option string;
  ti_status : option string;
  ti_priority : option string;
  ti_dueDate : option Z
}.

(** [Joi.date()]: a number is a timestamp, a string goes through the date
    parser; [.greater('now')] compares with the validation time. *)
Definition joi_date (E : Ext) (k : string) (v : json) : sum string Z :=
  match v with
  | JNum n => inr n
  | JStr s => match date_parse E s with
              | Some d => inr d
              | None => inl (label k ++ " must be a valid date")
              end
  | _ => inl (label k ++ " must be a valid date")
  end.

Definition joi_greater_now (k : string) (now d : Z) : sum string Z :=
  if Z.ltb now d then inr d
  else inl (label k ++ " must be greater than " ++ label "now").

(** The Joi [taskSchema] of lines 9-15. *)
Definition taskSchema (E : Ext) (now : Z) (body : json) : sum string TaskInput :=
  joi_object body (fun kvs =>
    let* title := joi_required "title" kvs (fun v =>
      let* s := joi_string "title" v in
      let* s := joi_min "title" 1 "1" s in joi_max "title" 100 "100" s) in
    let* description := joi_optional "description" kvs (fun v =>
      let* s := joi_string "description" v in joi_max "description" 500 "500" s) in
    let* status := joi_optional "status" kvs
      (joi_valid "status" task_statuses "[pending, in-progress, completed]") in
    let* priority := joi_optional "priority" kvs
      (joi_valid "priority" task_priorities "[low, medium, high]") in
    let* dueDate := joi_optional "dueDate" kvs (fun v =>
      let* d := joi_date E "dueDate" v in joi_greater_now "dueDate" now d) in
    let* _ := joi_unknown ["title"; "description"; "status"; "priority"; "dueDate"] kvs in
    inr (mkTaskInput title description status priority dueDate)).

Definition task_json (t : Task) : json :=
  JObj ([("_id", JNum (t_id t)); ("title", JStr (t_title t))]
        ++ (match t_description t with Some d => [("description", JStr d)] | None => [] end)
        ++ [("status", JStr (t_status t)); ("priority", JStr (t_priority t))]
        ++ (match t_dueDate t with Some d => [("dueDate", JNum d)] | None => [] end)
        ++ [("owner", JNum (t_owner t)); ("createdAt", JNum (t_createdAt t));
            ("updatedAt", JNum (t_updatedAt t))])%list.

(** The filter [{ _id: req.params.id, owner: req.user._id }]. *)
Definition id_owner (tid uid : Z) (t : Task) : bool :=
  andb (Z.eqb (t_id t) tid) (Z.eqb (t_owner t) uid).

(** [router.get('/:id')]. *)
Definition task_get (tasks : list Task) (uid tid : Z) : outcome :=
  match find (id_owner tid uid) tasks with
  | None => Respond 404 (err_body "Task not found")
  | Some t => Respond 200 (JObj [("task", task_json t)])
  end.

(** The clock reads of a creation, in the order the code makes them. *)
Record CreateClock : Type := mkCreateClock {
  at_joi : Z;       (** [greater('now')] in [taskSchema.validate] *)
  at_new : Z;       (** the [Date.now] defaults, in [new Task(...)] *)
  at_validate : Z;  (** [new Date()] in the [dueDate] validator *)
  at_hook : Z       (** [new Date()] in the pre-save hook *)
}.

(** [router.post('/')]: [new Task({ ...value, owner })] with the schema
    defaults and setters, then [save()]. *)
Definition task_create (E : Ext) (tasks : list Task) (uid : Z) (body : json)
  (c : CreateClock) (new_id : Z) : list Task * outcome :=
  match taskSchema E (at_joi c) body with
  | inl msg => (tasks, Respond 400 (err_body msg))
  | inr v =>
      let t := mkTask new_id (js_trim (ti_title v)) (option_map js_trim (ti_description v))
                 (match ti_status v with Some s => s | None => "pending" end)
                 (match ti_priority v with Some p => p | None => "medium" end)
                 (ti_dueDate v) uid (at_new c) (at_new c) in
      match save_new_task (at_validate c) (at_hook c) t with
      | inl err => (tasks, Forward err)
      | inr t' => ((tasks ++ [t'])%list,
                   Respond 201 (JObj [("message", JStr "Task created successfully");
                                      ("task", task_json t')]))
      end
  end.

(** The update validator of one [$set] path, after the casting setters. *)
Definition update_path_error (now : Z) (v : TaskInput) (k : string) : option string :=
  if String.eqb k "title" then validate_title (js_trim (ti_title v))
  else if String.eqb k "description" then
    validate_description (option_map js_trim (ti_description v))
  else if String.eqb k "status" then
    match ti_status v with Some s => validate_enum "status" task_statuses s | None => None end
  else if String.eqb k "priority" then
    match ti_priority v with Some p => validate_enum "priority" task_priorities p | None => None end
  else if String.eqb k "dueDate" then validate_dueDate now (ti_dueDate v)
  else None.

(** The keys of a body, in the order the client sent them. *)
Definition body_keys (body : json) : list string :=
  match body with JObj kvs => map fst kvs | _ => [] end.

(** The update validators ([runValidators: true]) on the [$set] paths, in
    the order of the update's keys, with [new Date()] of the [dueDate]
    validator read at [now]; an update's [ValidationError] has no model name
    in its prefix. *)
Definition update_validators (now : Z) (keys : list string) (v : TaskInput) : option string :=
  validation_error "Validation failed" (map (update_path_error now v) keys).

Definition override {A : Type} (new : option A) (old : A) : A :=
  match new with Some a => a | None => old end.

(** The [$set] of the supplied keys on the matched document; no save hook
    runs for [findOneAndUpdate]. *)
Definition apply_update (v : TaskInput) (t : Task) : Task :=
  mkTask (t_id t) (js_trim (ti_title v))
    (match ti_description v with Some d => Some (js_trim d) | None => t_description t end)
    (override (ti_status v) (t_status t)) (override (ti_priority v) (t_priority t))
    (match ti_dueDate v with Some d => Some d | None => t_dueDate t end)
    (t_owner t) (t_createdAt t) (t_updatedAt t).

Fixpoint update_first {A : Type} (p : A -> bool) (f : A -> A) (l : list A) : list A :=
  match l with
  | [] => []
  | x :: l' => if p x then f x :: l' else x :: update_first p f l'
  end.

Fixpoint delete_first {A : Type} (p : A -> bool) (l : list A) : list A :=
  match l with
  | [] => []
  | x :: l' => if p x then l' else x :: delete_first p l'
  end.

(** [router.put('/:id')]: Joi at [now], then
    [Task.findOneAndUpdate(filter, value, { new: true, runValidators: true })],
    whose validators read the clock at [now_v]. *)
Definition task_update (E : Ext) (tasks : list Task) (uid tid : Z) (body : json)
  (now now_v : Z) : list Task * outcome :=
  match taskSchema E now body with
  | inl msg => (tasks, Respond 400 (err_body msg))
  | inr v =>
      match update_validators now_v (body_keys body) v with
      | Some err => (tasks, Forward err)
      | None =>
          match find (id_owner tid uid) tasks with
          | None => (tasks, Respond 404 (err_body "Task not found"))
          | Some t =>
              (update_first (id_owner tid uid) (apply_update v) tasks,
               Respond 200 (JObj [("message", JStr "Task updated successfully");
                                  ("task", task_json (apply_update v t))]))
          end
      end
  end.

(** [router.delete('/:id')]: [Task.findOneAndDelete(filter)]. *)
Definition task_delete (tasks : list Task) (uid tid : Z) : list Task * outcome :=
  match find (id_owner tid uid) tasks with
  | None => (tasks, Respond 404 (err_body "Task not found"))
  | Some _ => (delete_first (id_owner tid uid) tasks,
               Respond 200 (JObj [("message", JStr "Task deleted successfully")]))
  end.

(** [router.get('/')]: the query parameters; [page] and [limit] are the
    numbers [parseInt] reads from them, finite (a [NaN] is not modelled) and
    so integers of double precision. *)
Record ListQuery : Type := mkListQuery {
  q_status : option string;
  q_priority : option string;
  q_sortBy : option string;
  q_sortOrder : option string;
  q_page : option Z;
  q_limit : option Z
}.

(** [query = { owner }], plus [status] / [priority] when truthy. *)
Definition list_filter (uid : Z) (status priority : option string) (t : Task) : bool :=
  andb (Z.eqb (t_owner t) uid)
    (andb (match status with
           | Some s => if String.eqb s "" then true else String.eqb (t_status t) s
           | None => true end)
          (match priority with
           | Some p => if String.eqb p "" then true else String.eqb (t_priority t) p
           | None => true end)).

Definition opt_compare {A : Type} (c : A -> A -> comparison) (a b : option A) : comparison :=
  match a, b with
  | None, None => Eq
  | None, Some _ => Lt
  | Some _, None => Gt
  | Some x, Some y => c x y
  end.

(** MongoDB's order on the value of one field; a field the documents lack
    compares equal. *)
Definition field_compare (field : string) (a b : Task) : comparison :=
  if String.eqb field "createdAt" then Z.compare (t_createdAt a) (t_createdAt b)
  else if String.eqb field "updatedAt" then Z.compare (t_updatedAt a) (t_updatedAt b)
  else if String.eqb field "dueDate" then opt_compare Z.compare (t_dueDate a) (t_dueDate b)
  else if String.eqb field "_id" then Z.compare (t_id a) (t_id b)
  else if String.eqb field "owner" then Z.compare (t_owner a) (t_owner b)
  else if String.eqb field "title" then String.compare (t_title a) (t_title b)
  else if String.eqb field "description" then
    opt_compare String.compare (t_description a) (t_description b)
  else if String.eqb field "status" then String.compare (t_status a) (t_status b)
  else if String.eqb field "priority" then String.compare (t_priority a) (t_priority b)
  else Eq.

(** [sort[sortBy] = sortOrder === 'desc' ? -1 : 1]. *)
Definition sort_compare (sortBy sortOrder : string) (a b : Task) : comparison :=
  if String.eqb sortOrder "desc" then CompOpp (field_compare sortBy a b)
  else field_compare sortBy a b.

(** [.sort(sort)], as a stable insertion sort: MongoDB leaves the order of
    ties to its plan, the model keeps them in natural order. *)
Fixpoint insert_by {A : Type} (cmp : A -> A -> comparison) (x : A) (l : list A) : list A :=
  match l with
  | [] => [x]
  | y :: l' =>
      match cmp x y with
      | Gt => y :: insert_by cmp x l'
      | _ => x :: l
      end
  end.

Fixpoint sort_by {A : Type} (cmp : A -> A -> comparison) (l : list A) : list A :=
  match l with
  | [] => []
  | x :: l' => insert_by cmp x (sort_by cmp l')
  end.

(** The sort object [sort] once [sort[sortBy]] is set: the key [__proto__]
    sets the prototype of [sort], which ignores a number, and leaves the sort
    empty; [$natural] is the storage order; any other key is a field path. *)
Inductive sort_key : Type :=
| NoSort
| ByNatural
| ByField (path : string).

(** A MongoDB field path: dot-separated names, none of them empty or
    starting with [$], and no NUL character. *)
Fixpoint path_ok (start : bool) (l : list ascii) : bool :=
  match l with
  | [] => negb start
  | c :: l' =>
      if Ascii.eqb c (ascii_of_nat 0) then false
      else if start then
        (if orb (Ascii.eqb c "."%char) (Ascii.eqb c "$"%char) then false else path_ok false l')
      else if Ascii.eqb c "."%char then path_ok true l' else path_ok false l'
  end.

Definition sort_key_of (sortBy : string) : sum db_error sort_key :=
  if String.eqb sortBy "__proto__" then inr NoSort
  else if String.eqb sortBy "$natural" then inr ByNatural
  else if path_ok true (list_ascii_of_string sortBy) then inr (ByField sortBy)
  else inl (BadSortKey sortBy).

(** The order the matching documents come back in.  Without a sort the
    server uses the order of its plan; the model takes natural order. *)
Definition order_by (key : sort_key) (sortOrder : string) (l : list Task) : list Task :=
  match key with
  | NoSort => l
  | ByNatural => if String.eqb sortOrder "desc" then rev l else l
  | ByField f => sort_by (sort_compare f sortOrder) l
  end.

(** The double nearest to an integer, ties to even: the result of
    JavaScript's arithmetic on two doubles that are integers. *)
Definition js_dbl (z : Z) : Z :=
  let a := Z.abs z in
  if Z.ltb a (2 ^ 53) then z
  else
    let e := Z.log2 a - 52 in
    let q := Z.shiftr a e in
    let r := a - Z.shiftl q e in
    let h := Z.shiftl 1 (e - 1) in
    let q' := if Z.ltb r h then q else if Z.ltb h r then q + 1
              else if Z.even q then q else q + 1 in
    Z.sgn z * Z.shiftl q' e.

Definition int64_max : Z := 2 ^ 63 - 1.

(** The [skip] and [limit] of the [find] command: the server refuses a
    [skip] outside [0 .. 2^63-1] and a [limit] whose absolute value (the
    driver sends a negative limit as its absolute value with [singleBatch])
    exceeds [2^63-1]; [skip] is checked first. *)
Definition window_error (skip lim : Z) : option db_error :=
  if orb (Z.ltb skip 0) (Z.ltb int64_max skip) then Some (BadSkip skip)
  else if Z.ltb int64_max (Z.abs lim) then Some (BadLimit lim)
  else None.

(** [.limit(n).skip(k)] once accepted: MongoDB skips first; [limit(0)]
    means no limit. *)
Definition skip_limit {A : Type} (skip lim : Z) (l : list A) : list A :=
  let rest := skipn (Z.to_nat skip) l in
  if Z.eqb lim 0 then rest else firstn (Z.to_nat (Z.abs lim)) rest.

(** [Math.ceil(a / b)] for [b <> 0]; [JSON.stringify] writes the
    non-finite results of [b = 0] as [null]. *)
Definition js_ceil_div (a b : Z) : json :=
  if Z.eqb b 0 then JNull else JNum (- ((- a) / b)).

Record Pagination : Type := mkPagination {
  pg_page : Z;
  pg_limit : Z;
  pg_total : Z;
  pg_pages : json
}.

(** The listing ([tasks]) and the [pagination] object of the response, or
    the server's refusal of the [find] command passed to [next]. *)
Definition tasks_list (tasks : list Task) (uid : Z) (q : ListQuery)
  : sum db_error (list Task * Pagination) :=
  let sortBy := match q_sortBy q with Some s => s | None => "createdAt" end in
  let sortOrder := match q_sortOrder q with Some s => s | None => "desc" end in
  let page := match q_page q with Some p => p | None => 1 end in
  let limit := match q_limit q with Some l => l | None => 10 end in
  let matching := filter (list_filter uid (q_status q) (q_priority q)) tasks in
  let skip := js_dbl (js_dbl (page - 1) * limit) in
  match window_error skip limit with
  | Some e => inl e
  | None =>
      let* key := sort_key_of sortBy in
      let items := skip_limit skip limit (order_by key sortOrder matching) in
      let total := Z.of_nat (length matching) in
      inr (items, mkPagination page limit total (js_ceil_div total limit))
  end.


(** ** Task statistics: [router.get('/stats/overview')] *)

(** One document entering [{ $group: { _id: '$status', count: { $sum: 1 } } }];
    groups are kept in order of first appearance. *)
Fixpoint group_add (s : string) (g : list (string * Z)) : list (string * Z) :=
  match g with
  | [] => [(s, 1)]
  | (k, c) :: g' => if String.eqb k s then (k, c + 1) :: g' else (k, c) :: group_add s g'
  end.

Definition group_by_status (ts : list Task) : list (string * Z) :=
  fold_left (fun g t => group_add (t_status t) g) ts [].

(** Reading a numeric property of a JS object ([undefined] counted as 0
    is never reached: the keys read are always there). *)
Definition num_get (k : string) (o : list (string * Z)) : Z :=
  match find (fun kv => String.eqb (fst kv) k) o with
  | Some kv => snd kv
  | None => 0
  end.

(** [o[k] = n]: overwrite in place, or add the key at the end. *)
Definition num_set (k : string) (n : Z) (o : list (string * Z)) : list (string * Z) :=
  if existsb (fun kv => String.eqb (fst kv) k) o
  then map (fun kv => if String.eqb (fst kv) k then (k, n) else kv) o
  else (o ++ [(k, n)])%list.

(** [stats.forEach(stat => { overview[stat._id] = stat.count;
    overview.total += stat.count; })]. *)
Definition overview_step (o : list (string * Z)) (stat : string * Z) : list (string * Z) :=
  let o1 := num_set (fst stat) (snd stat) o in
  num_set "total" (num_get "total" o1 + snd stat) o1.

Definition overview0 : list (string * Z) :=
  [("total", 0); ("pending", 0); ("in-progress", 0); ("completed", 0)].

(** The [overview] object: [$match] on the owner, [$group], then the fold. *)
Definition stats_overview (tasks : list Task) (uid : Z) : list (string * Z) :=
  fold_left overview_step
    (group_by_status (filter (fun t => Z.eqb (t_owner t) uid) tasks)) overview0.

Definition stats_route (tasks : list Task) (uid : Z) : outcome :=
  Respond 200 (JObj [("stats", JObj (map (fun kv => (fst kv, JNum (snd kv)))
                                          (stats_overview tasks uid)))]).

(** What of a user document is not a session: everything but [tokens]. *)
Definition user_core (u : User) : Z * string * string * string * string * Z :=
  (u_id u, u_name u, u_email u, u_password u, u_role u, u_createdAt u).

(** What of a task no request may change once it is created. *)
Definition task_key (t : Task) : Z * Z * Z := (t_id t, t_owner t, t_createdAt t).

(** Whether [pat] occurs in [s]. *)
Fixpoint contains (pat s : string) : bool :=
  match strip_prefix pat s with
  | Some _ => true
  | None => match s with
            | EmptyString => false
            | String _ s' => contains pat s'
            end
  end.

(** The [user] member of a response body, when there is one, is an object
    without the [password] and [tokens] keys. *)
Definition user_field_clean (o : outcome) : Prop :=
  match o with
  | Respond _ (JObj kvs) =>
      match obj_get "user" kvs with
      | None => True
      | Some (JObj ukvs) => ~ In "password" (map fst ukvs) /\ ~ In "tokens" (map fst ukvs)
      | Some _ => False
      end
  | _ => True
  end.

(** ** A concrete instance of the primitives and a small database *)

Definition has_at (s : string) : bool :=
  existsb (fun c => Ascii.eqb c "@"%char) (list_ascii_of_string s).

(** The token of [sign] only depends on the e-mail; [verify] accepts Ann's
    token only. *)
Definition ext0 : Ext :=
  mkExt (fun p _ => "jwt." ++ p_email p)
        (fun s _ => if String.eqb s "jwt.ann@x.io"
                    then Some (mkPayload 1 "ann@x.io" "user") else None)
        (fun p => "hash:" ++ p)
        (fun c h => String.eqb ("hash:" ++ c) h)
        has_at has_at
        (fun _ => None)
        (fun _ => "MongoServerError").

(** A second signing service whose verify accepts every token of Ann's
    devices (all tokens starting with [jwt.ann]). *)
Definition ext1 : Ext :=
  mkExt (fun p _ => "jwt." ++ p_email p)
        (fun s _ => if String.prefix "jwt.ann" s
                    then Some (mkPayload 1 "ann@x.io" "user") else None)
        (fun p => "hash:" ++ p)
        (fun c h => String.eqb ("hash:" ++ c) h)
        has_at has_at
        (fun _ => None)
        (fun _ => "MongoServerError").

Definition ann : User := mkUser 1 "Ann" "ann@x.io" "hash:secret1" "user" 0 [].
Definition bob : User := mkUser 2 "Bob" "bob@x.io" "hash:secret2" "user" 0 [].
Definition users0 : list User := [ann; bob].
(** Ann logged in on two devices. *)
Definition ann2 : User := set_tokens ann ["jwt.ann@laptop"; "jwt.ann@phone"].

Definition task_a : Task :=
  mkTask 7 "Write report" None "pending" "medium" None 1 100 100.
Definition tasks0 : list Task := [task_a].


Example replace_first_bearer_ex : replace_first "Bearer " "" "Bearer abc" = "abc". Proof. reflexivity. Qed.
Example replace_first_inner_ex : replace_first "Bearer " "" "xBearer abc" = "xabc". Proof. reflexivity. Qed.
Example js_trim_ex : js_trim "  hi there " = "hi there". Proof. reflexivity. Qed.
Example js_lower_ex : js_lower "AnN@X.io" = "ann@x.io". Proof. reflexivity. Qed.

(** ** Lemmas on the string and list helpers *)

Lemma strip_prefix_app : forall p s, strip_prefix p (p ++ s) = Some s.
Proof.
  induction p as [|c p IH]; intros s; simpl; [reflexivity|].
  rewrite Ascii.eqb_refl. apply IH.
Qed.

Lemma replace_first_prefix : forall p r s, replace_first p r (p ++ s) = r ++ s.
Proof.
  intros p r s. destruct p as [|c p].
  - simpl. destruct s; reflexivity.
  - simpl. rewrite Ascii.eqb_refl. rewrite strip_prefix_app. reflexivity.
Qed.

Lemma replace_first_not_contains : forall p r s,
  contains p s = false -> replace_first p r s = s.
Proof.
  intros p r s. induction s as [|c s IH]; intros H; simpl in *.
  - destruct (strip_prefix p ""); [discriminate|reflexivity].
  - destruct (strip_prefix p (String c s)); [discriminate|].
    rewrite (IH H). reflexivity.
Qed.

Lemma replace_first_none : forall p r c s,
  strip_prefix p (String c s) = None ->
  replace_first p r (String c s) = String c (replace_first p r s).
Proof. intros p r c s H. cbn [replace_first]. rewrite H. reflexivity. Qed.

Lemma in_obj_delete : forall k x l,
  In x (map fst (obj_delete k l)) -> x <> k /\ In x (map fst l).
Proof.
  intros k x l. unfold obj_delete. induction l as [|[a v] l IH]; simpl; [tauto|].
  destruct (String.eqb a k) eqn:E; simpl.
  - intros H. destruct (IH H). auto.
  - intros [H|H].
    + subst. split; [|auto]. intros ->. rewrite String.eqb_refl in E. discriminate.
    + destruct (IH H). auto.
Qed.

Lemma toJSON_clean : forall u b,
  ~ In "password" (map fst (obj_delete "tokens" (obj_delete "password" (toObject u b))))
  /\ ~ In "tokens" (map fst (obj_delete "tokens" (obj_delete "password" (toObject u b)))).
Proof.
  intros u b. split; intros H.
  - apply in_obj_delete in H as [_ H]. apply in_obj_delete in H as [H _]. auto.
  - apply in_obj_delete in H as [H _]. auto.
Qed.

Lemma clean_user_body : forall s m u b tok,
  user_field_clean (Respond s (JObj [("message", JStr m); ("user", toJSON u b);
                                     ("token", JStr tok)])).
Proof. intros. simpl. apply toJSON_clean. Qed.

Lemma clean_err : forall s msg, user_field_clean (Respond s (err_body msg)).
Proof. intros. simpl. exact I. Qed.

(** ** Lemmas on the user store *)

Lemma save_tokens_in : forall users v w,
  In w (save_tokens users v) -> u_id w = u_id v -> u_tokens w = u_tokens v.
Proof.
  intros users v w. unfold save_tokens. rewrite in_map_iff.
  intros [x [Hx _]] Hid. destruct (Z.eqb (u_id x) (u_id v)) eqn:E; subst w.
  - reflexivity.
  - simpl in Hid. apply Z.eqb_neq in E. contradiction.
Qed.

Lemma save_tokens_has : forall users u v,
  In u users -> u_id u = u_id v -> In (set_tokens u (u_tokens v)) (save_tokens users v).
Proof.
  intros users u v Hin Hid. unfold save_tokens. apply in_map_iff.
  exists u. split; [|exact Hin]. rewrite Hid, Z.eqb_refl. reflexivity.
Qed.

Lemma existsb_eqb_in : forall s l, existsb (String.eqb s) l = true <-> In s l.
Proof.
  intros s l. rewrite existsb_exists. split.
  - intros [x [Hx Heq]]. apply String.eqb_eq in Heq. subst. exact Hx.
  - intros H. exists s. split; [exact H|apply String.eqb_refl].
Qed.

(** A user whose id is the token's subject and who holds the token is found. *)
Lemma auth_verify_ok : forall E users token now p w,
  jwt_verify E token now = Some p -> In w users -> u_id w = p_id p ->
  In token (u_tokens w) ->
  exists v, auth_verify E users token now = GuardOk v token /\ u_id v = p_id p.
Proof.
  intros E users token now p w Hv Hw Hid Ht. unfold auth_verify. rewrite Hv.
  destruct (find _ users) as [v|] eqn:F.
  - apply find_some in F as [_ F]. apply andb_true_iff in F as [F _].
    apply Z.eqb_eq in F. eauto.
  - exfalso. pose proof (find_none _ _ F w Hw) as C. simpl in C.
    rewrite Hid, Z.eqb_refl in C. simpl in C.
    apply existsb_eqb_in in Ht. rewrite Ht in C. discriminate.
Qed.

Lemma auth_bearer : forall E users token now,
  token <> "" ->
  auth E users (Some ("Bearer " ++ token)) now = auth_verify E users token now.
Proof.
  intros E users token now Hne. unfold auth.
  rewrite (replace_first_prefix "Bearer " "" token). simpl.
  destruct (String.eqb token "") eqn:Q; [apply String.eqb_eq in Q; contradiction|].
  reflexivity.
Qed.

Lemma not_in_filter_token : forall token l,
  ~ In token (filter (fun t => negb (String.eqb t token)) l).
Proof.
  intros token l H. apply filter_In in H as [_ H].
  rewrite String.eqb_refl in H. discriminate.
Qed.

Lemma auth_reject_err : forall E users header now s b,
  auth E users header now = GuardReject s b -> exists msg, b = err_body msg.
Proof.
  intros E users header now s b. unfold auth, auth_verify.
  destruct header as [h|]; [|intros H; injection H as _ <-; eauto].
  destruct (String.eqb _ ""); [intros H; injection H as _ <-; eauto|].
  destruct (jwt_verify _ _ _); [destruct (find _ _)|];
    intros H; try discriminate; injection H as _ <-; eauto.
Qed.

(** ** Sessions: issue, check, logout *)

(** C1: a token returned by [generateAuthToken] passes the guard right away
    (resolving to its user), and once [logout] has removed it no guard check
    presenting it succeeds any more, at any time (even before expiry).  The
    JWT library is assumed to accept the fresh token at the check times and
    only ever to decode it to the payload it was signed with. *)
Theorem C1_issue_then_logout : forall E users u now users1 u1 token t1 t2,
  In u users ->
  generateAuthToken E users u now = (users1, u1, token) ->
  token <> "" ->
  jwt_verify E token t1 = Some (payload_of u) ->
  jwt_verify E token t2 = Some (payload_of u) ->
  (forall t p, jwt_verify E token t = Some p -> p = payload_of u) ->
  (exists v, auth E users1 (Some ("Bearer " ++ token)) t1 = GuardOk v token
             /\ u_id v = u_id u) /\
  snd (logout E users1 (Some ("Bearer " ++ token)) t2)
    = Respond 200 (JObj [("message", JStr "Logged out successfully")]) /\
  (forall h t3, replace_first "Bearer " "" h = token ->
     exists b, auth E (fst (logout E users1 (Some ("Bearer " ++ token)) t2)) (Some h) t3
               = GuardReject 401 b).
Proof.
  intros E users u now users1 u1 token t1 t2 Hin Hgen Hne Hv1 Hv2 Hsnd.
  unfold generateAuthToken in Hgen. injection Hgen as Hu1s Hu1 Htok.
  set (u1' := set_tokens u ((u_tokens u ++ [jwt_sign E (payload_of u) now])%list)) in *.
  assert (Hw : In (set_tokens u (u_tokens u1')) users1).
  { subst users1. apply save_tokens_has; [exact Hin | reflexivity]. }
  assert (Htw : In token (u_tokens (set_tokens u (u_tokens u1')))).
  { simpl. subst token. apply in_or_app. right. left. reflexivity. }
  assert (Hok : forall t, jwt_verify E token t = Some (payload_of u) ->
            exists v, auth E users1 (Some ("Bearer " ++ token)) t = GuardOk v token
                      /\ u_id v = u_id u).
  { intros t Ht. rewrite auth_bearer by exact Hne.
    exact (auth_verify_ok E users1 token t (payload_of u) _ Ht Hw eq_refl Htw). }
  split; [apply Hok, Hv1|].
  destruct (Hok t2 Hv2) as [v [Hauth Hid]].
  unfold logout, protected. rewrite Hauth. simpl. split; [reflexivity|].
  intros h t3 Hh. unfold auth. rewrite Hh.
  destruct (String.eqb token "") eqn:Q; [apply String.eqb_eq in Q; contradiction|].
  unfold auth_verify. destruct (jwt_verify E token t3) as [p|] eqn:Hv3; [|eauto].
  apply Hsnd in Hv3. subst p.
  destruct (find _ _) as [w|] eqn:F; [|eauto].
  exfalso. apply find_some in F as [Fin Fp].
  apply andb_true_iff in Fp as [Fid Ft]. apply Z.eqb_eq in Fid.
  apply existsb_eqb_in in Ft.
  rewrite (save_tokens_in _ _ _ Fin) in Ft by (simpl; rewrite Fid, Hid; reflexivity).
  simpl in Ft. apply (not_in_filter_token token (u_tokens v)). exact Ft.
Qed.

Lemma C1_witness :
  let '(users1, u1, token) := generateAuthToken ext0 users0 ann 0 in
  (exists v, auth ext0 users1 (Some ("Bearer " ++ token)) 5 = GuardOk v token
             /\ u_id v = u_id ann) /\
  snd (logout ext0 users1 (Some ("Bearer " ++ token)) 6)
    = Respond 200 (JObj [("message", JStr "Logged out successfully")]) /\
  (forall h t3, replace_first "Bearer " "" h = token ->
     exists b, auth ext0 (fst (logout ext0 users1 (Some ("Bearer " ++ token)) 6)) (Some h) t3
               = GuardReject 401 b).
Proof.
  refine (C1_issue_then_logout ext0 users0 ann 0 _ _ _ 5 6 _ eq_refl _ _ _ _).
  - simpl. auto.
  - discriminate.
  - reflexivity.
  - reflexivity.
  - intros t p H. simpl in H. injection H as <-. reflexivity.
Defined.

(** C9: a non-empty [Authorization] value that does not start with
    ["Bearer "] is not refused for its framing: the guard verifies the value
    with the first ["Bearer "] removed, which is not empty; a value without
    any ["Bearer "] is verified as it is, so a raw valid token is accepted. *)
Theorem C9_auth_unprefixed_header : forall E users h now,
  h <> "" -> strip_prefix "Bearer " h = None ->
  replace_first "Bearer " "" h <> "" /\
  auth E users (Some h) now = auth_verify E users (replace_first "Bearer " "" h) now /\
  (contains "Bearer " h = false ->
   auth E users (Some h) now = auth_verify E users h now).
Proof.
  intros E users h now Hne Hpre.
  assert (Hnz : replace_first "Bearer " "" h <> "").
  { destruct h as [|c h']; [contradiction|].
    rewrite replace_first_none by exact Hpre. discriminate. }
  assert (Hauth : auth E users (Some h) now
                  = auth_verify E users (replace_first "Bearer " "" h) now).
  { unfold auth. destruct (String.eqb _ "") eqn:Q; [|reflexivity].
    apply String.eqb_eq in Q. contradiction. }
  split; [exact Hnz|]. split; [exact Hauth|].
  intros Hc. rewrite Hauth, replace_first_not_contains by exact Hc. reflexivity.
Qed.

Lemma C9_witness :
  ("jwt.ann@x.io" <> "" /\ strip_prefix "Bearer " "jwt.ann@x.io" = None) /\
  (replace_first "Bearer " "" "jwt.ann@x.io" <> "" /\
   auth ext0 [set_tokens ann ["jwt.ann@x.io"]] (Some "jwt.ann@x.io") 0
   = auth_verify ext0 [set_tokens ann ["jwt.ann@x.io"]]
       (replace_first "Bearer " "" "jwt.ann@x.io") 0 /\
   (contains "Bearer " "jwt.ann@x.io" = false ->
    auth ext0 [set_tokens ann ["jwt.ann@x.io"]] (Some "jwt.ann@x.io") 0
    = auth_verify ext0 [set_tokens ann ["jwt.ann@x.io"]] "jwt.ann@x.io" 0)).
Proof.
  split; [split; [discriminate | reflexivity]|].
  apply C9_auth_unprefixed_header; [discriminate | reflexivity].
Defined.

(** C10: an update body without [title] is refused by the Joi schema with
    400 before any lookup, whatever else it holds and whatever the store. *)
Theorem C10_update_requires_title : forall E tasks uid tid kvs now now_v,
  obj_get "title" kvs = None ->
  task_update E tasks uid tid (JObj kvs) now now_v
  = (tasks, Respond 400 (err_body (label "title" ++ " is required"))).
Proof.
  intros E tasks uid tid kvs now now_v H.
  unfold task_update, taskSchema, joi_object, joi_required. rewrite H. reflexivity.
Qed.

Lemma C10_witness :
  obj_get "title" [("status", JStr "completed")] = None /\
  task_update ext0 tasks0 1 7 (JObj [("status", JStr "completed")]) 200 201
  = (tasks0, Respond 400 (err_body (label "title" ++ " is required"))).
Proof.
  split; [reflexivity|]. apply C10_update_requires_title. reflexivity.
Defined.

(** C6: a wrong password for a registered e-mail and an unregistered e-mail
    give the same response, 401 with [{ error: 'Invalid credentials' }], and
    change nothing. *)
Theorem C6_login_uniform_failure : forall E users b1 b2 now e1 pw1 e2 pw2 u,
  loginSchema E b1 = inr (e1, pw1) -> findByEmail users e1 = Some u ->
  comparePassword E u pw1 = false ->
  loginSchema E b2 = inr (e2, pw2) -> findByEmail users e2 = None ->
  login E users b1 now = (users, Respond 401 (err_body "Invalid credentials")) /\
  login E users b2 now = login E users b1 now.
Proof.
  intros E users b1 b2 now e1 pw1 e2 pw2 u H1 F1 C1 H2 F2.
  assert (L1 : login E users b1 now = (users, Respond 401 (err_body "Invalid credentials"))).
  { unfold login. rewrite H1, F1, C1. reflexivity. }
  split; [exact L1|]. rewrite L1. unfold login. rewrite H2, F2. reflexivity.
Qed.

Lemma C6_witness :
  (loginSchema ext0 (JObj [("email", JStr "ann@x.io"); ("password", JStr "wrong")])
   = inr ("ann@x.io", "wrong") /\
   findByEmail users0 "ann@x.io" = Some ann /\ comparePassword ext0 ann "wrong" = false /\
   loginSchema ext0 (JObj [("email", JStr "eve@x.io"); ("password", JStr "secret1")])
   = inr ("eve@x.io", "secret1") /\
   findByEmail users0 "eve@x.io" = None) /\
  (login ext0 users0 (JObj [("email", JStr "ann@x.io"); ("password", JStr "wrong")]) 0
   = (users0, Respond 401 (err_body "Invalid credentials")) /\
   login ext0 users0 (JObj [("email", JStr "eve@x.io"); ("password", JStr "secret1")]) 0
   = login ext0 users0 (JObj [("email", JStr "ann@x.io"); ("password", JStr "wrong")]) 0).
Proof.
  split; [repeat split; reflexivity|].
  eapply C6_login_uniform_failure; reflexivity.
Defined.

(** C8: whenever a response of [register], [login] or [me] carries a user,
    it is an object without [password] and [tokens]. *)
Theorem C8_user_json_hides_secrets : forall E users body header now new_id,
  user_field_clean (snd (register E users body now new_id)) /\
  user_field_clean (snd (login E users body now)) /\
  user_field_clean (snd (me E users header now)).
Proof.
  intros E users body header now new_id. split; [|split].
  - unfold register.
    destruct (registerSchema E body) as [msg|[[name email] password]]; [apply clean_err|].
    destruct (findByEmail users email); [apply clean_err|].
    destruct (create_user E users name email password now new_id) as [err|[users1 u]];
      [exact I|].
    destruct (generateAuthToken E users1 u now) as [[users2 u'] token].
    apply clean_user_body.
  - unfold login.
    destruct (loginSchema E body) as [msg|[email password]]; [apply clean_err|].
    destruct (findByEmail users email) as [user|]; [|apply clean_err].
    destruct (negb (comparePassword E user password)); [apply clean_err|].
    destruct (generateAuthToken E users user now) as [[users1 u'] token].
    apply clean_user_body.
  - unfold me, protected. destruct (auth E users header now) as [u t|s b] eqn:A.
    + exact (toJSON_clean u false).
    + apply auth_reject_err in A as [msg ->]. apply clean_err.
Qed.

(** ** Owner scoping *)

Lemma find_none_of : forall {A : Type} (f : A -> bool) l,
  (forall x, In x l -> f x = false) -> find f l = None.
Proof.
  intros A f l H. destruct (find f l) as [x|] eqn:F; [|reflexivity].
  apply find_some in F as [Fin Fx]. rewrite (H x Fin) in Fx. discriminate.
Qed.

Lemma NoDup_map_inj : forall {A B : Type} (f : A -> B) l x y,
  NoDup (map f l) -> In x l -> In y l -> f x = f y -> x = y.
Proof.
  intros A B f l. induction l as [|a l IH]; intros x y Hnd Hx Hy Hf; [destruct Hx|].
  simpl in Hnd. inversion Hnd as [|? ? Hnot Hnd']; subst.
  destruct Hx as [<-|Hx], Hy as [<-|Hy]; auto.
  - exfalso. apply Hnot. rewrite Hf. apply in_map. exact Hy.
  - exfalso. apply Hnot. rewrite <- Hf. apply in_map. exact Hx.
Qed.

(** No task of [b] carries the id of [a]'s task, nor an id absent from the store. *)
Lemma no_match_other_owner : forall tasks t b,
  In t tasks -> NoDup (map t_id tasks) -> t_owner t <> b ->
  find (id_owner (t_id t) b) tasks = None.
Proof.
  intros tasks t b Hin Hnd Hob. apply find_none_of. intros x Hx.
  unfold id_owner. destruct (Z.eqb (t_id x) (t_id t)) eqn:E1; [|reflexivity].
  apply Z.eqb_eq in E1. rewrite (NoDup_map_inj t_id tasks x t Hnd Hx Hin E1).
  simpl. apply Z.eqb_neq. exact Hob.
Qed.

Lemma no_match_absent : forall tasks tid b,
  (forall x, In x tasks -> t_id x <> tid) -> find (id_owner tid b) tasks = None.
Proof.
  intros tasks tid b H. apply find_none_of. intros x Hx. unfold id_owner.
  destruct (Z.eqb (t_id x) tid) eqn:E1; [|reflexivity].
  apply Z.eqb_eq in E1. exfalso. exact (H x Hx E1).
Qed.

Lemma task_update_no_match : forall E tasks uid tid body now now_v,
  find (id_owner tid uid) tasks = None ->
  fst (task_update E tasks uid tid body now now_v) = tasks /\
  (forall tid', find (id_owner tid' uid) tasks = None ->
     task_update E tasks uid tid body now now_v = task_update E tasks uid tid' body now now_v) /\
  (forall v, taskSchema E now body = inr v ->
     update_validators now_v (body_keys body) v = None ->
     snd (task_update E tasks uid tid body now now_v) = Respond 404 (err_body "Task not found")).
Proof.
  intros E tasks uid tid body now now_v F. unfold task_update. rewrite F.
  split; [|split].
  - destruct (taskSchema E now body); [reflexivity|].
    destruct (update_validators now_v (body_keys body) t); reflexivity.
  - intros tid' F'. rewrite F'. reflexivity.
  - intros v Hv Hval. rewrite Hv, Hval. reflexivity.
Qed.

(** Validation runs before any lookup: a body the Joi schema refuses gets
    400, one the update validators refuse gets their error, whatever the
    store and the id. *)
Lemma task_update_invalid : forall E tasks uid tid body now now_v,
  (forall msg, taskSchema E now body = inl msg ->
     snd (task_update E tasks uid tid body now now_v) = Respond 400 (err_body msg)) /\
  (forall v err, taskSchema E now body = inr v ->
     update_validators now_v (body_keys body) v = Some err ->
     snd (task_update E tasks uid tid body now now_v) = Forward err).
Proof.
  intros E tasks uid tid body now now_v. unfold task_update. split.
  - intros msg H. rewrite H. reflexivity.
  - intros v err H Hv. rewrite H, Hv. reflexivity.
Qed.

(** C2 (as amended): for a task of [a] and a caller [b <> a], [get] and
    [delete] answer 404 and change nothing; [update] changes nothing either;
    it answers 404 whenever the body passes the Joi schema and the model's
    update validators, and otherwise fails on that validation (400 with the
    Joi message, or the validators' error passed to the error handler); in
    every case the outcome is the one an id absent from the store gets. *)
Theorem C2_cross_owner_as_missing : forall E tasks t a b tid' body now now_v,
  In t tasks -> NoDup (map t_id tasks) -> t_owner t = a -> a <> b ->
  (forall x, In x tasks -> t_id x <> tid') ->
  task_get tasks b (t_id t) = Respond 404 (err_body "Task not found") /\
  task_get tasks b (t_id t) = task_get tasks b tid' /\
  task_delete tasks b (t_id t) = (tasks, Respond 404 (err_body "Task not found")) /\
  task_delete tasks b (t_id t) = task_delete tasks b tid' /\
  fst (task_update E tasks b (t_id t) body now now_v) = tasks /\
  task_update E tasks b (t_id t) body now now_v = task_update E tasks b tid' body now now_v /\
  (forall v, taskSchema E now body = inr v ->
     update_validators now_v (body_keys body) v = None ->
     snd (task_update E tasks b (t_id t) body now now_v) = Respond 404 (err_body "Task not found")) /\
  (forall msg, taskSchema E now body = inl msg ->
     snd (task_update E tasks b (t_id t) body now now_v) = Respond 400 (err_body msg)) /\
  (forall v err, taskSchema E now body = inr v ->
     update_validators now_v (body_keys body) v = Some err ->
     snd (task_update E tasks b (t_id t) body now now_v) = Forward err).
Proof.
  intros E tasks t a b tid' body now now_v Hin Hnd Ho Hab Habs.
  assert (F : find (id_owner (t_id t) b) tasks = None)
    by (apply no_match_other_owner; [exact Hin | exact Hnd | rewrite Ho; exact Hab]).
  assert (F' : find (id_owner tid' b) tasks = None) by (apply no_match_absent; exact Habs).
  destruct (task_update_no_match E tasks b (t_id t) body now now_v F) as [U1 [U2 U3]].
  destruct (task_update_invalid E tasks b (t_id t) body now now_v) as [I1 I2].
  unfold task_get, task_delete. rewrite F, F'.
  repeat split; auto.
Qed.

(** [b = 2] reads, deletes and updates [a = 1]'s task 7 and the absent id
    8, with a body both validations accept and with one Joi refuses. *)
Lemma C2_witness :
  (task_get tasks0 2 (t_id task_a) = Respond 404 (err_body "Task not found") /\
  task_get tasks0 2 (t_id task_a) = task_get tasks0 2 8 /\
  task_delete tasks0 2 (t_id task_a) = (tasks0, Respond 404 (err_body "Task not found")) /\
  task_delete tasks0 2 (t_id task_a) = task_delete tasks0 2 8 /\
  fst (task_update ext0 tasks0 2 (t_id task_a) (JObj [("title", JStr "Hack")]) 200 201) = tasks0 /\
  task_update ext0 tasks0 2 (t_id task_a) (JObj [("title", JStr "Hack")]) 200 201 = task_update ext0 tasks0 2 8 (JObj [("title", JStr "Hack")]) 200 201 /\
  (forall v, taskSchema ext0 200 (JObj [("title", JStr "Hack")]) = inr v ->
     update_validators 201 (body_keys (JObj [("title", JStr "Hack")])) v = None ->
     snd (task_update ext0 tasks0 2 (t_id task_a) (JObj [("title", JStr "Hack")]) 200 201) = Respond 404 (err_body "Task not found")) /\
  (forall msg, taskSchema ext0 200 (JObj [("title", JStr "Hack")]) = inl msg ->
     snd (task_update ext0 tasks0 2 (t_id task_a) (JObj [("title", JStr "Hack")]) 200 201) = Respond 400 (err_body msg)) /\
  (forall v err, taskSchema ext0 200 (JObj [("title", JStr "Hack")]) = inr v ->
     update_validators 201 (body_keys (JObj [("title", JStr "Hack")])) v = Some err ->
     snd (task_update ext0 tasks0 2 (t_id task_a) (JObj [("title", JStr "Hack")]) 200 201) = Forward err)) /\
  (task_get tasks0 2 (t_id task_a) = Respond 404 (err_body "Task not found") /\
  task_get tasks0 2 (t_id task_a) = task_get tasks0 2 8 /\
  task_delete tasks0 2 (t_id task_a) = (tasks0, Respond 404 (err_body "Task not found")) /\
  task_delete tasks0 2 (t_id task_a) = task_delete tasks0 2 8 /\
  fst (task_update ext0 tasks0 2 (t_id task_a) (JObj []) 200 201) = tasks0 /\
  task_update ext0 tasks0 2 (t_id task_a) (JObj []) 200 201 = task_update ext0 tasks0 2 8 (JObj []) 200 201 /\
  (forall v, taskSchema ext0 200 (JObj []) = inr v ->
     update_validators 201 (body_keys (JObj [])) v = None ->
     snd (task_update ext0 tasks0 2 (t_id task_a) (JObj []) 200 201) = Respond 404 (err_body "Task not found")) /\
  (forall msg, taskSchema ext0 200 (JObj []) = inl msg ->
     snd (task_update ext0 tasks0 2 (t_id task_a) (JObj []) 200 201) = Respond 400 (err_body msg)) /\
  (forall v err, taskSchema ext0 200 (JObj []) = inr v ->
     update_validators 201 (body_keys (JObj [])) v = Some err ->
     snd (task_update ext0 tasks0 2 (t_id task_a) (JObj []) 200 201) = Forward err)).
Proof.
  assert (Hx : forall x, In x tasks0 -> t_id x <> 8).
  { intros x [<-|[]]. simpl. discriminate. }
  assert (Hnd : NoDup (map t_id tasks0)) by (repeat constructor; simpl; tauto).
  split.
  - apply (C2_cross_owner_as_missing ext0 tasks0 task_a 1 2 8 (JObj [("title", JStr "Hack")]) 200 201).
    + left. reflexivity.
    + exact Hnd.
    + reflexivity.
    + discriminate.
    + exact Hx.
  - apply (C2_cross_owner_as_missing ext0 tasks0 task_a 1 2 8 (JObj []) 200 201).
    + left. reflexivity.
    + exact Hnd.
    + reflexivity.
    + discriminate.
    + exact Hx.
Defined.

(** C2 as stated fails: [b]'s update of [a]'s task with a body the schema
    refuses gets 400, not 404. *)
Lemma C2_update_not_404 :
  snd (task_update ext0 tasks0 2 (t_id task_a) (JObj []) 200 201)
  <> Respond 404 (err_body "Task not found").
Proof. simpl. discriminate. Qed.

(** ** Validation before persistence *)

Lemma bind_inr : forall {Err A B : Type} (m : sum Err A) (f : A -> sum Err B) b,
  bind m f = inr b -> exists a, m = inr a /\ f a = inr b.
Proof. intros Err A B m f b. destruct m as [e|a]; simpl; [discriminate|eauto]. Qed.

(** A body the Joi schema accepts has no [dueDate], or one strictly after
    the validation time. *)
Lemma taskSchema_dueDate : forall E now kvs v dv,
  taskSchema E now (JObj kvs) = inr v -> obj_get "dueDate" kvs = Some dv ->
  exists d, joi_date E "dueDate" dv = inr d /\ now < d.
Proof.
  intros E now kvs v dv H Hdv. unfold taskSchema, joi_object in H.
  apply bind_inr in H as [? [_ H]].
  apply bind_inr in H as [? [_ H]].
  apply bind_inr in H as [? [_ H]].
  apply bind_inr in H as [? [_ H]].
  apply bind_inr in H as [dd [Hd _]].
  unfold joi_optional in Hd. rewrite Hdv in Hd.
  apply bind_inr in Hd as [a [Ha _]].
  apply bind_inr in Ha as [d [Hjd Hg]].
  exists d. split; [exact Hjd|].
  unfold joi_greater_now in Hg. destruct (Z.ltb now d) eqn:L; [|discriminate].
  apply Z.ltb_lt. exact L.
Qed.

(** C5: a [dueDate] that is a date not strictly after the request time (the
    time Joi reads for [greater('now')]) makes [create] and [update] answer
    400 before anything is written: the store is unchanged. *)
Theorem C5_past_dueDate_rejected : forall E tasks uid tid kvs dv d c now now_v new_id,
  obj_get "dueDate" kvs = Some dv -> joi_date E "dueDate" dv = inr d ->
  d <= at_joi c -> d <= now ->
  (exists msg, task_create E tasks uid (JObj kvs) c new_id
               = (tasks, Respond 400 (err_body msg))) /\
  (exists msg, task_update E tasks uid tid (JObj kvs) now now_v
               = (tasks, Respond 400 (err_body msg))).
Proof.
  intros E tasks uid tid kvs dv d c now now_v new_id Hdv Hd Hc Hle. split.
  - destruct (taskSchema E (at_joi c) (JObj kvs)) as [msg|v] eqn:S.
    + unfold task_create. rewrite S. eauto.
    + exfalso. destruct (taskSchema_dueDate E (at_joi c) kvs v dv S Hdv) as [d' [Hd' Hlt]].
      rewrite Hd in Hd'. injection Hd' as <-. lia.
  - destruct (taskSchema E now (JObj kvs)) as [msg|v] eqn:S.
    + unfold task_update. rewrite S. eauto.
    + exfalso. destruct (taskSchema_dueDate E now kvs v dv S Hdv) as [d' [Hd' Hlt]].
      rewrite Hd in Hd'. injection Hd' as <-. lia.
Qed.

Lemma C5_witness :
  (obj_get "dueDate" [("title", JStr "Pay rent"); ("dueDate", JNum 150)] = Some (JNum 150) /\
   joi_date ext0 "dueDate" (JNum 150) = inr 150 /\ 150 <= 200) /\
  ((exists msg, task_create ext0 tasks0 1 (JObj [("title", JStr "Pay rent"); ("dueDate", JNum 150)])
                  (mkCreateClock 200 201 202 203) 9
                = (tasks0, Respond 400 (err_body msg))) /\
   (exists msg, task_update ext0 tasks0 1 7 (JObj [("title", JStr "Pay rent"); ("dueDate", JNum 150)]) 200 201
                = (tasks0, Respond 400 (err_body msg)))).
Proof.
  split; [split; [reflexivity | split; [reflexivity | lia]]|].
  apply (C5_past_dueDate_rejected ext0 tasks0 1 7 _ (JNum 150) 150 (mkCreateClock 200 201 202 203)
           200 201 9);
    [reflexivity | reflexivity | simpl; lia | lia].
Defined.

(** ** What an update writes *)

(** A successful update stores [apply_update v t] in place of the matched
    task [t]: the supplied keys (after the casting setters) replace theirs,
    [_id], [owner], [createdAt] and [updatedAt] are kept. *)
Lemma task_update_frame : forall E tasks uid tid body now now_v tasks' o,
  task_update E tasks uid tid body now now_v = (tasks', o) ->
  (exists msg, o = Respond 400 (err_body msg) /\ tasks' = tasks) \/
  (exists err, o = Forward err /\ tasks' = tasks) \/
  (o = Respond 404 (err_body "Task not found") /\ tasks' = tasks) \/
  (exists v t, taskSchema E now body = inr v /\ find (id_owner tid uid) tasks = Some t /\
     tasks' = update_first (id_owner tid uid) (apply_update v) tasks /\
     t_id (apply_update v t) = t_id t /\ t_owner (apply_update v t) = t_owner t /\
     t_createdAt (apply_update v t) = t_createdAt t /\
     t_updatedAt (apply_update v t) = t_updatedAt t).
Proof.
  intros E tasks uid tid body now now_v tasks' o. unfold task_update.
  destruct (taskSchema E now body) as [msg|v] eqn:S.
  - intros H. injection H as <- <-. left. eauto.
  - destruct (update_validators now_v (body_keys body) v) as [err|].
    + intros H. injection H as <- <-. right. left. eauto.
    + destruct (find (id_owner tid uid) tasks) as [t|] eqn:F.
      * intros H. injection H as <- <-. right. right. right.
        exists v, t. repeat split; reflexivity.
      * intros H. injection H as <- <-. right. right. left. auto.
Qed.

(** C3 (code_bug): the owner's update of task 7 (updatedAt 100) at time 200
    with [{ title: "New" }] stores the new title but leaves [updatedAt] at
    100: [findOneAndUpdate] does not run the [pre('save')] hook (at whatever
    time its validators read the clock). *)
Theorem C3_update_keeps_updatedAt : forall now_v,
  task_update ext0 tasks0 1 7 (JObj [("title", JStr "New")]) 200 now_v
  = ([mkTask 7 "New" None "pending" "medium" None 1 100 100],
     Respond 200 (JObj [("message", JStr "Task updated successfully");
                        ("task", task_json (mkTask 7 "New" None "pending" "medium" None 1 100 100))]))
  /\ ~ (t_updatedAt task_a < t_updatedAt (mkTask 7 "New" None "pending" "medium" None 1 100 100)).
Proof. intros now_v. split; [reflexivity | simpl; lia]. Qed.

(** ** E-mail uniqueness *)

Lemma save_tokens_emails : forall users v,
  map u_email (save_tokens users v) = map u_email users.
Proof.
  intros users v. unfold save_tokens. rewrite map_map. apply map_ext.
  intros x. destruct (Z.eqb (u_id x) (u_id v)); reflexivity.
Qed.

Lemma NoDup_snoc : forall {A : Type} (l : list A) x,
  NoDup l -> ~ In x l -> NoDup (l ++ [x])%list.
Proof.
  intros A l x. induction l as [|a l IH]; intros Hnd Hx; simpl.
  - constructor; [intros []|constructor].
  - inversion Hnd as [|? ? Ha Hnd']; subst. constructor.
    + intros H. apply in_app_or in H as [H|[H|[]]]; [contradiction|].
      subst. apply Hx. left. reflexivity.
    + apply IH; [exact Hnd'|]. intros H. apply Hx. right. exact H.
Qed.

Lemma create_user_inr : forall E users name email password now new_id users1 u,
  create_user E users name email password now new_id = inr (users1, u) ->
  users1 = (users ++ [u])%list /\ u_email u = js_lower email /\
  existsb (fun v => String.eqb (u_email v) (js_lower email)) users = false.
Proof.
  intros E users name email password now new_id users1 u. unfold create_user.
  destruct (validate_user _ _ _ _); [discriminate|].
  destruct (existsb _ users) eqn:X; [discriminate|].
  intros H. injection H as <- <-. auto.
Qed.

Lemma existsb_email_false : forall users e,
  existsb (fun v => String.eqb (u_email v) e) users = false -> ~ In e (map u_email users).
Proof.
  intros users e H Hin. apply in_map_iff in Hin as [w [Hw Hin]].
  assert (existsb (fun v => String.eqb (u_email v) e) users = true).
  { apply existsb_exists. exists w. split; [exact Hin|]. rewrite Hw. apply String.eqb_refl. }
  congruence.
Qed.

Lemma register_NoDup : forall E users body now new_id,
  NoDup (map u_email users) -> NoDup (map u_email (fst (register E users body now new_id))).
Proof.
  intros E users body now new_id Hnd. unfold register.
  destruct (registerSchema E body) as [msg|[[name email] password]]; [exact Hnd|].
  destruct (findByEmail users email); [exact Hnd|].
  destruct (create_user E users name email password now new_id) as [err|[users1 u]] eqn:C;
    [exact Hnd|].
  apply create_user_inr in C as [-> [He Hx]]. simpl. rewrite save_tokens_emails.
  rewrite map_app. simpl. apply NoDup_snoc; [exact Hnd|].
  rewrite He. apply existsb_email_false. exact Hx.
Qed.

(** After a registration succeeded, the store holds a user with the
    lowercased e-mail. *)
Lemma register_201_has_email : forall E users body now new_id users1 b name email password,
  registerSchema E body = inr (name, email, password) ->
  register E users body now new_id = (users1, Respond 201 b) ->
  exists w, In w users1 /\ u_email w = js_lower email.
Proof.
  intros E users body now new_id users1 b name email password S. unfold register.
  rewrite S. destruct (findByEmail users email); [intros H; injection H as _ H; discriminate|].
  destruct (create_user E users name email password now new_id) as [err|[usersA u]] eqn:C;
    [discriminate|].
  apply create_user_inr in C as [-> [He _]]. simpl. intros H. injection H as <- _.
  set (v := set_tokens u ((u_tokens u ++ [jwt_sign E (payload_of u) now])%list)).
  exists (set_tokens u (u_tokens v)).
  split.
  - apply save_tokens_has; [|reflexivity]. apply in_or_app. right. left. reflexivity.
  - exact He.
Qed.

(** C4: registrations never make two users share an e-mail (the e-mails of
    the store stay pairwise distinct), and once a registration succeeded a
    valid registration whose e-mail lowercases to the same string answers
    400 [User already exists with this email] and creates nobody. *)
Theorem C4_register_unique_email :
  forall E users b1 b2 now1 now2 id1 id2 users1 body1 n1 e1 p1 n2 e2 p2,
  registerSchema E b1 = inr (n1, e1, p1) ->
  register E users b1 now1 id1 = (users1, Respond 201 body1) ->
  registerSchema E b2 = inr (n2, e2, p2) -> js_lower e1 = js_lower e2 ->
  register E users1 b2 now2 id2
    = (users1, Respond 400 (err_body "User already exists with this email")) /\
  (forall us b t i, NoDup (map u_email us) -> NoDup (map u_email (fst (register E us b t i)))).
Proof.
  intros E users b1 b2 now1 now2 id1 id2 users1 body1 n1 e1 p1 n2 e2 p2 S1 R1 S2 Hl.
  split; [|exact (register_NoDup E)].
  destruct (register_201_has_email E users b1 now1 id1 users1 body1 n1 e1 p1 S1 R1)
    as [w [Hw He]].
  unfold register. rewrite S2.
  destruct (findByEmail users1 e2) eqn:F; [reflexivity|].
  exfalso. pose proof (find_none _ _ F w Hw) as C. simpl in C.
  rewrite He, Hl, String.eqb_refl in C. discriminate.
Qed.

Lemma C4_witness :
  (registerSchema ext0 (JObj [("name", JStr "Ann"); ("email", JStr "ann@x.io"); ("password", JStr "secret1")])
   = inr ("Ann", "ann@x.io", "secret1") /\
   register ext0 [] (JObj [("name", JStr "Ann"); ("email", JStr "ann@x.io"); ("password", JStr "secret1")]) 0 1
   = (fst (register ext0 [] (JObj [("name", JStr "Ann"); ("email", JStr "ann@x.io"); ("password", JStr "secret1")]) 0 1),
      Respond 201 (JObj [("message", JStr "User registered successfully");
                         ("user", toJSON (mkUser 1 "Ann" "ann@x.io" "hash:secret1" "user" 0 ["jwt.ann@x.io"]) true);
                         ("token", JStr "jwt.ann@x.io")])) /\
   registerSchema ext0 (JObj [("name", JStr "Annie"); ("email", JStr "ANN@x.io"); ("password", JStr "secret2")])
   = inr ("Annie", "ANN@x.io", "secret2") /\
   js_lower "ann@x.io" = js_lower "ANN@x.io") /\
  (register ext0 (fst (register ext0 [] (JObj [("name", JStr "Ann"); ("email", JStr "ann@x.io"); ("password", JStr "secret1")]) 0 1))
     (JObj [("name", JStr "Annie"); ("email", JStr "ANN@x.io"); ("password", JStr "secret2")]) 5 2
   = (fst (register ext0 [] (JObj [("name", JStr "Ann"); ("email", JStr "ann@x.io"); ("password", JStr "secret1")]) 0 1),
      Respond 400 (err_body "User already exists with this email")) /\
   (forall us b t i, NoDup (map u_email us) -> NoDup (map u_email (fst (register ext0 us b t i))))).
Proof.
  split; [repeat split; reflexivity|].
  apply (C4_register_unique_email ext0 []
           (JObj [("name", JStr "Ann"); ("email", JStr "ann@x.io"); ("password", JStr "secret1")])
           (JObj [("name", JStr "Annie"); ("email", JStr "ANN@x.io"); ("password", JStr "secret2")])
           0 5 1 2 _
           (JObj [("message", JStr "User registered successfully");
                  ("user", toJSON (mkUser 1 "Ann" "ann@x.io" "hash:secret1" "user" 0 ["jwt.ann@x.io"]) true);
                  ("token", JStr "jwt.ann@x.io")])
           "Ann" "ann@x.io" "secret1" "Annie" "ANN@x.io" "secret2");
    reflexivity.
Defined.

(** ** Listing and pagination *)

Section InsertionSort.
Variable A : Type.
Variable cmp : A -> A -> comparison.
Variable R : A -> A -> Prop.
Hypothesis R_le : forall x y, cmp x y <> Gt -> R x y.
Hypothesis R_gt : forall x y, cmp x y = Gt -> R y x.



End InsertionSort.

Lemma insert_by_length : forall {A : Type} cmp (x : A) l,
  length (insert_by cmp x l) = S (length l).
Proof.
  intros A cmp x l. induction l as [|y l IH]; simpl; [reflexivity|].
  destruct (cmp x y); simpl; congruence.
Qed.

Lemma sort_by_length : forall {A : Type} cmp (l : list A), length (sort_by cmp l) = length l.
Proof.
  intros A cmp l. induction l as [|x l IH]; simpl; [reflexivity|].
  rewrite insert_by_length. congruence.
Qed.

Lemma skipn_sorted : forall {A : Type} (R : A -> A -> Prop) n l,
  Sorted R l -> Sorted R (skipn n l).
Proof.
  intros A R n. induction n as [|n IH]; intros l Hs; [exact Hs|].
  destruct l as [|x l]; simpl; [constructor|].
  apply IH. apply Sorted_inv in Hs as [Hs _]. exact Hs.
Qed.

Lemma firstn_sorted : forall {A : Type} (R : A -> A -> Prop) n l,
  Sorted R l -> Sorted R (firstn n l).
Proof.
  intros A R n. induction n as [|n IH]; intros l Hs; simpl; [constructor|].
  destruct l as [|x l]; [constructor|].
  apply Sorted_inv in Hs as [Hs Hd]. constructor; [apply IH; exact Hs|].
  destruct n as [|n]; simpl; [constructor|].
  destruct l as [|y l]; [constructor|]. inversion Hd. constructor. assumption.
Qed.



Lemma insert_by_perm : forall {A : Type} cmp (x : A) l,
  Permutation (x :: l) (insert_by cmp x l).
Proof.
  intros A cmp x l. induction l as [|y l IH]; simpl; [reflexivity|].
  destruct (cmp x y); try reflexivity.
  transitivity (y :: x :: l); [apply perm_swap|]. constructor. exact IH.
Qed.

Lemma sort_by_perm : forall {A : Type} cmp (l : list A), Permutation l (sort_by cmp l).
Proof.
  intros A cmp l. induction l as [|x l IH]; simpl; [reflexivity|].
  transitivity (x :: sort_by cmp l); [constructor; exact IH | apply insert_by_perm].
Qed.

Lemma order_by_perm : forall key so l, Permutation l (order_by key so l).
Proof.
  intros key so l. destruct key; simpl.
  - reflexivity.
  - destruct (String.eqb so "desc"); [apply Permutation_rev | reflexivity].
  - apply sort_by_perm.
Qed.






(** ** Extra: task statistics *)

Definition group_sum (g : list (string * Z)) : Z := fold_right (fun kv acc => snd kv + acc) 0 g.

Definition status_count (s : string) (l : list Task) : Z :=
  Z.of_nat (length (filter (fun t => String.eqb (t_status t) s) l)).

Definition ov (a b c d : Z) : list (string * Z) :=
  [("total", a); ("pending", b); ("in-progress", c); ("completed", d)].

Definition if_in (s : string) (g : list (string * Z)) (x : Z) : Z :=
  if existsb (String.eqb s) (map fst g) then num_get s g else x.

Lemma group_add_get : forall s x g,
  num_get s (group_add x g) = num_get s g + (if String.eqb x s then 1 else 0).
Proof.
  intros s x g. induction g as [|[k c] g IH]; simpl.
  - unfold num_get. simpl. destruct (String.eqb x s); reflexivity.
  - destruct (String.eqb k x) eqn:Ekx.
    + apply String.eqb_eq in Ekx. subst k. unfold num_get. simpl.
      destruct (String.eqb x s); simpl; lia.
    + unfold num_get in *. simpl. destruct (String.eqb k s) eqn:Eks.
      * apply String.eqb_eq in Eks. subst k.
        rewrite String.eqb_sym, Ekx. lia.
      * exact IH.
Qed.

Lemma group_add_keys : forall y x g,
  In y (map fst (group_add x g)) -> y = x \/ In y (map fst g).
Proof.
  intros y x g. induction g as [|[k c] g IH]; simpl.
  - intros [H|[]]. auto.
  - destruct (String.eqb k x); simpl; intros [H|H]; auto.
    destruct (IH H); auto.
Qed.

Lemma group_add_nodup : forall x g, NoDup (map fst g) -> NoDup (map fst (group_add x g)).
Proof.
  intros x g. induction g as [|[k c] g IH]; simpl; intros Hnd.
  - repeat constructor. intros [].
  - inversion Hnd as [|? ? Hk Hnd']; subst.
    destruct (String.eqb k x) eqn:E; simpl; constructor; auto.
    intros Hin. apply group_add_keys in Hin as [Hin|Hin]; [|contradiction].
    subst. rewrite String.eqb_refl in E. discriminate.
Qed.

Lemma group_add_sum : forall x g, group_sum (group_add x g) = group_sum g + 1.
Proof.
  intros x g. induction g as [|[k c] g IH]; simpl; [reflexivity|].
  destruct (String.eqb k x); simpl; lia.
Qed.

Lemma group_fold_props : forall l g,
  NoDup (map fst g) ->
  let G := fold_left (fun g t => group_add (t_status t) g) l g in
  NoDup (map fst G) /\ group_sum G = group_sum g + Z.of_nat (length l) /\
  (forall s, num_get s G = num_get s g + status_count s l) /\
  (forall k, In k (map fst G) -> In k (map fst g) \/ exists t, In t l /\ t_status t = k).
Proof.
  induction l as [|t l IH]; intros g Hnd; simpl.
  - split; [exact Hnd|]. split; [lia|]. split; [intros; unfold status_count; simpl; lia|].
    auto.
  - destruct (IH (group_add (t_status t) g) (group_add_nodup _ _ Hnd))
      as [H1 [H2 [H3 H4]]].
    split; [exact H1|]. split.
    + rewrite H2, group_add_sum. lia.
    + split.
      * intros s. rewrite H3, group_add_get. unfold status_count. simpl.
        destruct (String.eqb (t_status t) s); simpl; lia.
      * intros k Hk. destruct (H4 k Hk) as [Hg|[t' [Ht' Hs]]].
        -- apply group_add_keys in Hg as [->|Hg]; [right; exists t; auto | left; exact Hg].
        -- right. exists t'. auto.
Qed.

Lemma if_in_zero : forall s g, if_in s g 0 = num_get s g.
Proof.
  intros s g. unfold if_in, num_get.
  destruct (existsb (String.eqb s) (map fst g)) eqn:E; [reflexivity|].
  destruct (find _ g) as [kv|] eqn:F; [|reflexivity].
  apply find_some in F as [Fin Fk]. apply String.eqb_eq in Fk.
  assert (existsb (String.eqb s) (map fst g) = true).
  { apply existsb_eqb_in. rewrite <- Fk. apply in_map. exact Fin. }
  congruence.
Qed.

Lemma if_in_same : forall s n g x, if_in s ((s, n) :: g) x = n.
Proof. intros. unfold if_in, num_get. simpl. rewrite String.eqb_refl. reflexivity. Qed.

Lemma if_in_other : forall s k n g x, String.eqb s k = false ->
  if_in s ((k, n) :: g) x = if_in s g x.
Proof.
  intros s k n g x E. unfold if_in, num_get. simpl. rewrite E.
  rewrite String.eqb_sym, E. reflexivity.
Qed.

Lemma if_in_absent : forall s g x, ~ In s (map fst g) -> if_in s g x = x.
Proof.
  intros s g x H. unfold if_in. destruct (existsb _ _) eqn:E; [|reflexivity].
  apply existsb_eqb_in in E. contradiction.
Qed.

Lemma overview_fold : forall g a b c d,
  NoDup (map fst g) -> (forall k, In k (map fst g) -> In k task_statuses) ->
  fold_left overview_step g (ov a b c d)
  = ov (a + group_sum g) (if_in "pending" g b) (if_in "in-progress" g c)
       (if_in "completed" g d).
Proof.
  induction g as [|[k n] g IH]; intros a b c d Hnd Hk.
  - unfold ov, if_in. simpl. rewrite Z.add_0_r. reflexivity.
  - inversion Hnd as [|? ? Hnk Hnd']; subst.
    assert (Hk' : forall k', In k' (map fst g) -> In k' task_statuses)
      by (intros; apply Hk; right; auto).
    cbn [fold_left group_sum fold_right snd].
    destruct (Hk k (or_introl eq_refl)) as [<-|[<-|[<-|[]]]].
    + replace (overview_step (ov a b c d) ("pending", n)) with (ov (a + n) n c d)
        by reflexivity.
      rewrite IH by assumption. rewrite if_in_same, (if_in_absent "pending") by exact Hnk.
      rewrite !if_in_other by reflexivity. f_equal. fold (group_sum g). lia.
    + replace (overview_step (ov a b c d) ("in-progress", n)) with (ov (a + n) b n d)
        by reflexivity.
      rewrite IH by assumption.
      rewrite if_in_same, (if_in_absent "in-progress") by exact Hnk.
      rewrite !if_in_other by reflexivity. f_equal. fold (group_sum g). lia.
    + replace (overview_step (ov a b c d) ("completed", n)) with (ov (a + n) b c n)
        by reflexivity.
      rewrite IH by assumption.
      rewrite if_in_same, (if_in_absent "completed") by exact Hnk.
      rewrite !if_in_other by reflexivity. f_equal. fold (group_sum g). lia.
Qed.

(** X1: when the caller's tasks all have a status of the schema's enum (the
    [enum] validator keeps it so), [stats/overview] reports the number of the
    caller's tasks as [total] and, for each of the three statuses, the number
    of the caller's tasks with it, 0 for a status none has. *)
Theorem stats_overview_counts : forall tasks uid,
  (forall t, In t tasks -> t_owner t = uid -> In (t_status t) task_statuses) ->
  let mine := filter (fun t => Z.eqb (t_owner t) uid) tasks in
  stats_overview tasks uid
  = [("total", Z.of_nat (length mine)); ("pending", status_count "pending" mine);
     ("in-progress", status_count "in-progress" mine);
     ("completed", status_count "completed" mine)].
Proof.
  intros tasks uid Hst mine. unfold stats_overview, group_by_status. fold mine.
  destruct (group_fold_props mine [] (NoDup_nil _)) as [H1 [H2 [H3 H4]]].
  change overview0 with (ov 0 0 0 0). rewrite overview_fold.
  - unfold ov. rewrite !if_in_zero, !H3, H2. reflexivity.
  - exact H1.
  - intros k Hk. destruct (H4 k Hk) as [[]|[t [Ht <-]]].
    apply filter_In in Ht as [Ht Ho]. apply Z.eqb_eq in Ho. exact (Hst t Ht Ho).
Qed.

Lemma stats_overview_counts_witness :
  (forall t, In t [mkTask 1 "a" None "pending" "medium" None 1 0 0;
                   mkTask 2 "b" None "completed" "low" None 1 0 0;
                   mkTask 3 "c" None "pending" "high" None 1 0 0;
                   mkTask 4 "d" None "in-progress" "high" None 2 0 0;
                   mkTask 5 "e" None "pending" "medium" None 1 0 0] ->
             t_owner t = 1 -> In (t_status t) task_statuses) /\
  stats_overview [mkTask 1 "a" None "pending" "medium" None 1 0 0;
                  mkTask 2 "b" None "completed" "low" None 1 0 0;
                  mkTask 3 "c" None "pending" "high" None 1 0 0;
                  mkTask 4 "d" None "in-progress" "high" None 2 0 0;
                  mkTask 5 "e" None "pending" "medium" None 1 0 0] 1
  = [("total", 4); ("pending", 3); ("in-progress", 0); ("completed", 1)].
Proof.
  assert (H : forall t, In t [mkTask 1 "a" None "pending" "medium" None 1 0 0;
                   mkTask 2 "b" None "completed" "low" None 1 0 0;
                   mkTask 3 "c" None "pending" "high" None 1 0 0;
                   mkTask 4 "d" None "in-progress" "high" None 2 0 0;
                   mkTask 5 "e" None "pending" "medium" None 1 0 0] ->
             t_owner t = 1 -> In (t_status t) task_statuses).
  { intros t Ht _. simpl in Ht.
    repeat (destruct Ht as [<-|Ht]; [simpl; tauto|]). destruct Ht. }
  split; [exact H|].
  exact (stats_overview_counts _ 1 H).
Defined.

(** ** Extra: sessions of several devices *)

Lemma auth_ok_inv : forall E users h now v tok,
  auth E users (Some h) now = GuardOk v tok ->
  tok = replace_first "Bearer " "" h /\ tok <> "" /\
  exists p, jwt_verify E tok now = Some p /\ In v users /\ u_id v = p_id p /\
            In tok (u_tokens v).
Proof.
  intros E users h now v tok. unfold auth, auth_verify.
  destruct (String.eqb (replace_first "Bearer " "" h) "") eqn:Q; [discriminate|].
  destruct (jwt_verify E _ now) as [p|] eqn:V; [|discriminate].
  destruct (find _ users) as [w|] eqn:F; [|discriminate].
  intros H. injection H as <- <-. apply find_some in F as [Fin Fp].
  apply andb_true_iff in Fp as [Fid Ft]. apply Z.eqb_eq in Fid.
  apply existsb_eqb_in in Ft. apply String.eqb_neq in Q.
  split; [reflexivity|]. split; [exact Q|]. exists p. auto.
Qed.

Lemma auth_ok_of : forall E users h now tok p w,
  replace_first "Bearer " "" h = tok -> tok <> "" -> jwt_verify E tok now = Some p ->
  In w users -> u_id w = p_id p -> In tok (u_tokens w) ->
  exists v, auth E users (Some h) now = GuardOk v tok /\ u_id v = p_id p.
Proof.
  intros E users h now tok p w Hr Hne Hv Hw Hid Ht. unfold auth. rewrite Hr.
  destruct (String.eqb tok "") eqn:Q; [apply String.eqb_eq in Q; contradiction|].
  exact (auth_verify_ok E users tok now p w Hv Hw Hid Ht).
Qed.

(** X2: logging out one session leaves every other session of the store
    working: a header accepted before the logout, for a token other than the
    one logged out, is still accepted after it, for a user with the same id
    (user ids are unique). *)
Theorem logout_keeps_other_sessions : forall E users h0 now0 u tok h now v tok',
  NoDup (map u_id users) ->
  auth E users (Some h0) now0 = GuardOk u tok ->
  auth E users (Some h) now = GuardOk v tok' -> tok' <> tok ->
  exists v', auth E (fst (logout_handler users u tok)) (Some h) now = GuardOk v' tok'
             /\ u_id v' = u_id v.
Proof.
  intros E users h0 now0 u tok h now v tok' Hnd Hu Hv Hne.
  destruct (auth_ok_inv _ _ _ _ _ _ Hu) as [_ [_ [p0 [_ [Huin _]]]]].
  destruct (auth_ok_inv _ _ _ _ _ _ Hv) as [Hr [Hnz [p [Hver [Hvin [Hid Ht]]]]]].
  simpl. set (u' := set_tokens u (filter (fun t => negb (String.eqb t tok)) (u_tokens u))).
  destruct (Z.eqb (u_id v) (u_id u)) eqn:E1.
  - apply Z.eqb_eq in E1.
    assert (v = u) as -> by exact (NoDup_map_inj u_id users v u Hnd Hvin Huin E1).
    destruct (auth_ok_of E (save_tokens users u') h now tok' p
                (set_tokens u (u_tokens u')) (eq_sym Hr) Hnz Hver)
      as [v' [Ha Hi]].
    + apply save_tokens_has; [exact Huin | reflexivity].
    + exact Hid.
    + simpl. apply filter_In. split; [exact Ht|].
      apply negb_true_iff, String.eqb_neq. exact Hne.
    + exists v'. split; [exact Ha|]. rewrite Hi. symmetry. exact Hid.
  - destruct (auth_ok_of E (save_tokens users u') h now tok' p v (eq_sym Hr) Hnz Hver)
      as [v' [Ha Hi]].
    + unfold save_tokens. apply in_map_iff. exists v. split; [|exact Hvin].
      simpl. rewrite E1. reflexivity.
    + exact Hid.
    + exact Ht.
    + exists v'. split; [exact Ha|]. rewrite Hi. symmetry. exact Hid.
Qed.

Lemma logout_keeps_other_sessions_witness :
  exists v',
    auth ext1 (fst (logout_handler [ann2; bob] ann2 "jwt.ann@phone"))
      (Some "Bearer jwt.ann@laptop") 0 = GuardOk v' "jwt.ann@laptop"
    /\ u_id v' = u_id ann2.
Proof.
  apply (logout_keeps_other_sessions ext1 [ann2; bob] "Bearer jwt.ann@phone" 0
           ann2 "jwt.ann@phone" "Bearer jwt.ann@laptop" 0 ann2 "jwt.ann@laptop").
  - simpl. constructor; [simpl; intros [H|[]]; discriminate|].
    constructor; [intros []|constructor].
  - reflexivity.
  - reflexivity.
  - discriminate.
Defined.

(** A save of [u'] keeps accepting a header whose user either has another
    id or still holds the token in [u']. *)
Lemma auth_save_tokens : forall E users u' h now v tok,
  auth E users (Some h) now = GuardOk v tok ->
  (u_id v = u_id u' -> In tok (u_tokens u')) ->
  exists v', auth E (save_tokens users u') (Some h) now = GuardOk v' tok
             /\ u_id v' = u_id v.
Proof.
  intros E users u' h now v tok Hv Hkeep.
  destruct (auth_ok_inv _ _ _ _ _ _ Hv) as [Hr [Hnz [p [Hver [Hvin [Hid Ht]]]]]].
  destruct (Z.eqb (u_id v) (u_id u')) eqn:E1.
  - apply Z.eqb_eq in E1.
    destruct (auth_ok_of E (save_tokens users u') h now tok p
                (set_tokens v (u_tokens u')) (eq_sym Hr) Hnz Hver)
      as [v' [Ha Hi]].
    + apply save_tokens_has; [exact Hvin | exact E1].
    + exact Hid.
    + exact (Hkeep E1).
    + exists v'. split; [exact Ha|]. rewrite Hi. symmetry. exact Hid.
  - destruct (auth_ok_of E (save_tokens users u') h now tok p v (eq_sym Hr) Hnz Hver)
      as [v' [Ha Hi]].
    + unfold save_tokens. apply in_map_iff. exists v. split; [|exact Hvin].
      rewrite E1. reflexivity.
    + exact Hid.
    + exact Ht.
    + exists v'. split; [exact Ha|]. rewrite Hi. symmetry. exact Hid.
Qed.

(** X3: issuing a token ([generateAuthToken], run by every login and
    registration) for a stored user never ends an existing session: every
    header accepted before is accepted after, for a user with the same id. *)
Theorem generateAuthToken_keeps_sessions : forall E users u now h t v tok,
  NoDup (map u_id users) -> In u users ->
  auth E users (Some h) t = GuardOk v tok ->
  let '(users1, _, _) := generateAuthToken E users u now in
  exists v', auth E users1 (Some h) t = GuardOk v' tok /\ u_id v' = u_id v.
Proof.
  intros E users u now h t v tok Hnd Hu Hv. unfold generateAuthToken.
  apply (auth_save_tokens E users _ h t v tok Hv). simpl. intros Hid.
  destruct (auth_ok_inv _ _ _ _ _ _ Hv) as [_ [_ [p [_ [Hvin [_ Ht]]]]]].
  assert (v = u) as -> by exact (NoDup_map_inj u_id users v u Hnd Hvin Hu Hid).
  apply in_or_app. left. exact Ht.
Qed.

Lemma generateAuthToken_keeps_sessions_witness :
  let '(users1, _, _) := generateAuthToken ext1 [ann2; bob] ann2 9 in
  exists v', auth ext1 users1 (Some "Bearer jwt.ann@phone") 0 = GuardOk v' "jwt.ann@phone"
             /\ u_id v' = u_id ann2.
Proof.
  apply (generateAuthToken_keeps_sessions ext1 [ann2; bob] ann2 9 "Bearer jwt.ann@phone" 0
           ann2 "jwt.ann@phone").
  - simpl. constructor; [simpl; intros [H|[]]; discriminate|].
    constructor; [intros []|constructor].
  - left. reflexivity.
  - reflexivity.
Defined.

(** ** Extra: registration and login *)

Lemma save_tokens_absent : forall l v, ~ In (u_id v) (map u_id l) -> save_tokens l v = l.
Proof.
  intros l v. unfold save_tokens. induction l as [|a l IH]; intros H; [reflexivity|].
  simpl. destruct (Z.eqb (u_id a) (u_id v)) eqn:E1.
  - apply Z.eqb_eq in E1. exfalso. apply H. left. exact E1.
  - f_equal. apply IH. intros Hin. apply H. right. exact Hin.
Qed.

(** What a successful registration stores, for a fresh [_id]. *)
Lemma register_201_store : forall E users b now nid users1 body n e p,
  registerSchema E b = inr (n, e, p) -> ~ In nid (map u_id users) ->
  register E users b now nid = (users1, Respond 201 body) ->
  let token := jwt_sign E (mkPayload nid (js_lower e) "user") now in
  let u := mkUser nid (js_trim n) (js_lower e) (bcrypt_hash E p) "user" now [token] in
  users1 = (users ++ [u])%list /\
  existsb (fun v => String.eqb (u_email v) (js_lower e)) users = false /\
  body = JObj [("message", JStr "User registered successfully");
               ("user", toJSON u true); ("token", JStr token)].
Proof.
  intros E users b now nid users1 body n e p S Hf. unfold register. rewrite S.
  destruct (findByEmail users e); [intros H; injection H as _ H; discriminate|].
  unfold create_user.
  destruct (validate_user _ _ _ _); [discriminate|].
  destruct (existsb _ users) eqn:X; [discriminate|].
  cbn zeta. unfold generateAuthToken. cbn [fst snd u_tokens u_id].
  intros H. injection H as <- <-. split; [|split; reflexivity].
  unfold save_tokens. rewrite map_app. f_equal.
  - apply save_tokens_absent. exact Hf.
  - simpl. rewrite Z.eqb_refl. reflexivity.
Qed.



Lemma find_app_none : forall {A : Type} (f : A -> bool) l1 l2,
  existsb f l1 = false -> find f (l1 ++ l2)%list = find f l2.
Proof.
  intros A f l1 l2. induction l1 as [|a l1 IH]; intros H; [reflexivity|].
  simpl in *. apply orb_false_iff in H as [Ha Hl]. rewrite Ha. exact (IH Hl).
Qed.

(** X5: register, then log in: once a registration succeeded, a login whose
    e-mail lowercases to the registered one (in any letter case) and whose
    password is the registered one succeeds (200) as the new user, given a
    bcrypt that accepts a password against its own hash. *)
Theorem register_then_login : forall E users b now nid users1 body n e p b2 e2 now2,
  registerSchema E b = inr (n, e, p) -> ~ In nid (map u_id users) ->
  register E users b now nid = (users1, Respond 201 body) ->
  loginSchema E b2 = inr (e2, p) -> js_lower e2 = js_lower e ->
  bcrypt_compare E p (bcrypt_hash E p) = true ->
  exists v token,
    login E users1 b2 now2
    = (save_tokens users1 v, Respond 200 (JObj [("message", JStr "Login successful");
                                                ("user", toJSON v true);
                                                ("token", JStr token)]))
    /\ u_id v = nid.
Proof.
  intros E users b now nid users1 body n e p b2 e2 now2 S Hf R L Hl Hb.
  destruct (register_201_store E users b now nid users1 body n e p S Hf R) as [H1 [Hx _]].
  unfold login. rewrite L. unfold findByEmail. rewrite H1, Hl, find_app_none by exact Hx.
  cbn [find u_email]. rewrite String.eqb_refl. unfold comparePassword.
  cbn [u_password]. rewrite Hb. cbn [negb]. unfold generateAuthToken.
  eexists. eexists. split; reflexivity.
Qed.

Lemma register_then_login_witness :
  exists v token,
    login ext0 (fst (register ext0 [bob]
           (JObj [("name", JStr "Ann"); ("email", JStr "ANN@x.io"); ("password", JStr "secret1")]) 0 1))
      (JObj [("email", JStr "ann@X.IO"); ("password", JStr "secret1")]) 5
    = (save_tokens (fst (register ext0 [bob]
           (JObj [("name", JStr "Ann"); ("email", JStr "ANN@x.io"); ("password", JStr "secret1")]) 0 1)) v,
       Respond 200 (JObj [("message", JStr "Login successful");
                          ("user", toJSON v true); ("token", JStr token)]))
    /\ u_id v = 1.
Proof.
  refine (register_then_login ext0 [bob]
           (JObj [("name", JStr "Ann"); ("email", JStr "ANN@x.io"); ("password", JStr "secret1")]) 0 1
           _ _ "Ann" "ANN@x.io" "secret1"
           (JObj [("email", JStr "ann@X.IO"); ("password", JStr "secret1")]) "ann@X.IO" 5
           eq_refl _ eq_refl eq_refl eq_refl eq_refl).
  simpl. intros [H|[]]. discriminate.
Defined.

Lemma joi_unknown_rejects : forall allowed kvs k v,
  In (k, v) kvs -> ~ In k allowed -> joi_unknown allowed kvs <> inr tt.
Proof.
  intros allowed kvs k v Hin Hk. unfold joi_unknown.
  destruct (find _ kvs) eqn:F; [discriminate|]. intros _.
  pose proof (find_none _ _ F (k, v) Hin) as C. cbn [fst] in C.
  apply negb_false_iff, existsb_exists in C as [x [Hx Heq]].
  apply String.eqb_eq in Heq. subst. contradiction.
Qed.

(** X6: registration refuses every key but [name], [email] and [password]
    (so a client cannot choose its [role]): 400, and nobody is created. *)
Theorem register_rejects_extra_key : forall E users kvs k v now nid,
  In (k, v) kvs -> ~ In k ["name"; "email"; "password"] ->
  exists msg, register E users (JObj kvs) now nid = (users, Respond 400 (err_body msg)).
Proof.
  intros E users kvs k v now nid Hin Hk. unfold register.
  destruct (registerSchema E (JObj kvs)) as [msg|r] eqn:S; [eauto|exfalso].
  unfold registerSchema, joi_object in S.
  apply bind_inr in S as [? [_ S]].
  apply bind_inr in S as [? [_ S]].
  apply bind_inr in S as [? [_ S]].
  apply bind_inr in S as [[] [U _]].
  exact (joi_unknown_rejects _ _ _ _ Hin Hk U).
Qed.

Lemma register_rejects_extra_key_witness :
  exists msg, register ext0 users0
    (JObj [("name", JStr "Eve"); ("email", JStr "eve@x.io"); ("password", JStr "secret9");
           ("role", JStr "admin")]) 0 3
    = (users0, Respond 400 (err_body msg)).
Proof.
  apply (register_rejects_extra_key ext0 users0 _ "role" (JStr "admin") 0 3).
  - simpl. right. right. right. left. reflexivity.
  - simpl. intros [H|[H|[H|[]]]]; discriminate.
Defined.

(** ** Extra: task writes *)

(** X7: the task schema refuses every key but [title], [description],
    [status], [priority] and [dueDate] (so a client cannot set [owner]): both
    creation and update (validated by Joi at the same time) answer the same
    400 and leave the tasks unchanged. *)
Theorem task_writes_reject_extra_key : forall E tasks uid tid kvs k v c now_v nid,
  In (k, v) kvs -> ~ In k ["title"; "description"; "status"; "priority"; "dueDate"] ->
  exists msg,
    task_create E tasks uid (JObj kvs) c nid = (tasks, Respond 400 (err_body msg)) /\
    task_update E tasks uid tid (JObj kvs) (at_joi c) now_v = (tasks, Respond 400 (err_body msg)).
Proof.
  intros E tasks uid tid kvs k v c now_v nid Hin Hk. unfold task_create, task_update.
  destruct (taskSchema E (at_joi c) (JObj kvs)) as [msg|r] eqn:S; [eauto|exfalso].
  unfold taskSchema, joi_object in S.
  do 5 (apply bind_inr in S as [? [_ S]]).
  apply bind_inr in S as [[] [U _]].
  exact (joi_unknown_rejects _ _ _ _ Hin Hk U).
Qed.

Lemma task_writes_reject_extra_key_witness :
  exists msg,
    task_create ext0 tasks0 1 (JObj [("title", JStr "Mine now"); ("owner", JNum 1)])
      (mkCreateClock 50 51 52 53) 8
      = (tasks0, Respond 400 (err_body msg)) /\
    task_update ext0 tasks0 1 7 (JObj [("title", JStr "Mine now"); ("owner", JNum 1)]) 50 51
      = (tasks0, Respond 400 (err_body msg)).
Proof.
  apply (task_writes_reject_extra_key ext0 tasks0 1 7 _ "owner" (JNum 1)
           (mkCreateClock 50 51 52 53) 51 8).
  - simpl. right. left. reflexivity.
  - simpl. intros [H|[H|[H|[H|[H|[]]]]]]; discriminate.
Defined.

Lemma find_app : forall {A : Type} (f : A -> bool) l1 l2,
  find f (l1 ++ l2)%list = match find f l1 with Some x => Some x | None => find f l2 end.
Proof.
  intros A f l1 l2. induction l1 as [|a l1 IH]; [reflexivity|].
  simpl. destruct (f a); [reflexivity | exact IH].
Qed.

Lemma absent_ids : forall tasks nid,
  ~ In nid (map t_id tasks) -> forall x, In x tasks -> t_id x <> nid.
Proof.
  intros tasks nid H x Hx E1. apply H. apply in_map_iff. exists x. auto.
Qed.

(** X8: create, then read back. A created task (fresh [_id]) is appended to
    the store with its title and description trimmed, [status] defaulting to
    [pending], [priority] to [medium], the caller as owner, [createdAt] the
    time of [new Task(...)] and [updatedAt] the later time the pre-save hook
    reads; the response carries that task, a GET of its id by the owner
    returns the same, and a GET by anyone else 404. *)
Theorem task_create_then_get : forall E tasks uid body c nid tasks1 res v,
  taskSchema E (at_joi c) body = inr v -> ~ In nid (map t_id tasks) ->
  task_create E tasks uid body c nid = (tasks1, Respond 201 res) ->
  let t := mkTask nid (js_trim (ti_title v)) (option_map js_trim (ti_description v))
             (override (ti_status v) "pending") (override (ti_priority v) "medium")
             (ti_dueDate v) uid (at_new c) (at_hook c) in
  tasks1 = (tasks ++ [t])%list /\
  res = JObj [("message", JStr "Task created successfully"); ("task", task_json t)] /\
  task_get tasks1 uid nid = Respond 200 (JObj [("task", task_json t)]) /\
  (forall b, b <> uid -> task_get tasks1 b nid = Respond 404 (err_body "Task not found")).
Proof.
  intros E tasks uid body c nid tasks1 res v S Hf. unfold task_create. rewrite S.
  unfold save_new_task. cbn [t_title t_description t_status t_priority t_dueDate
                             t_id t_owner t_createdAt].
  destruct (validation_error _ _); [discriminate|].
  intros H. injection H as <- <-. cbn zeta.
  split; [reflexivity|]. split; [reflexivity|].
  unfold task_get. rewrite find_app, (no_match_absent tasks nid uid (absent_ids tasks nid Hf)).
  split.
  - cbn [find]. unfold id_owner. cbn [t_id t_owner]. rewrite !Z.eqb_refl. reflexivity.
  - intros b Hb. rewrite find_app, (no_match_absent tasks nid b (absent_ids tasks nid Hf)).
    cbn [find]. unfold id_owner. cbn [t_id t_owner]. rewrite Z.eqb_refl.
    destruct (Z.eqb uid b) eqn:E1; [apply Z.eqb_eq in E1; congruence | reflexivity].
Qed.

Lemma task_create_then_get_witness :
  let t := mkTask 8 "Call Bob" None "pending" "medium" None 1 51 53 in
  fst (task_create ext0 tasks0 1 (JObj [("title", JStr " Call Bob ")]) (mkCreateClock 50 51 52 53) 8) = (tasks0 ++ [t])%list /\
  snd (task_create ext0 tasks0 1 (JObj [("title", JStr " Call Bob ")]) (mkCreateClock 50 51 52 53) 8)
    = Respond 201 (JObj [("message", JStr "Task created successfully"); ("task", task_json t)]) /\
  task_get (fst (task_create ext0 tasks0 1 (JObj [("title", JStr " Call Bob ")]) (mkCreateClock 50 51 52 53) 8)) 1 8
    = Respond 200 (JObj [("task", task_json t)]) /\
  (forall b, b <> 1 ->
     task_get (fst (task_create ext0 tasks0 1 (JObj [("title", JStr " Call Bob ")]) (mkCreateClock 50 51 52 53) 8)) b 8
     = Respond 404 (err_body "Task not found")).
Proof.
  destruct (task_create_then_get ext0 tasks0 1 (JObj [("title", JStr " Call Bob ")]) (mkCreateClock 50 51 52 53) 8
              _ _ (mkTaskInput " Call Bob " None None None None) eq_refl
              ltac:(simpl; intros [H|[]]; discriminate) eq_refl)
    as [H1 [H2 [H3 H4]]].
  split; [exact H1|]. split; [exact (f_equal (Respond 201) H2)|]. split; [exact H3|]. exact H4.
Defined.

Lemma string_of_list_ascii_length : forall l,
  String.length (string_of_list_ascii l) = List.length l.
Proof. induction l as [|c l IH]; simpl; congruence. Qed.

Lemma list_ascii_of_string_length : forall s,
  List.length (list_ascii_of_string s) = String.length s.
Proof. induction s as [|c s IH]; simpl; congruence. Qed.

Lemma drop_ws_length : forall l, (List.length (drop_ws l) <= List.length l)%nat.
Proof. induction l as [|c l IH]; simpl; [lia|]. destruct (is_ws c); simpl; lia. Qed.

Lemma js_trim_length : forall s, (String.length (js_trim s) <= String.length s)%nat.
Proof.
  intros s. unfold js_trim. rewrite string_of_list_ascii_length, length_rev.
  pose proof (drop_ws_length (rev (drop_ws (list_ascii_of_string s)))) as H1.
  pose proof (drop_ws_length (list_ascii_of_string s)) as H2.
  rewrite length_rev, list_ascii_of_string_length in *. lia.
Qed.

Lemma obj_get_in : forall k kvs x, obj_get k kvs = Some x -> In k (map fst kvs).
Proof.
  intros k kvs x. unfold obj_get. destruct (find _ kvs) as [kv|] eqn:F; [|discriminate].
  intros _. apply find_some in F as [Hin Heq]. apply String.eqb_eq in Heq.
  apply in_map_iff. exists kv. auto.
Qed.

(** What a body the Joi schema accepts guarantees of the value it returns. *)
Lemma taskSchema_fields : forall E now body v, taskSchema E now body = inr v ->
  exists kvs, body = JObj kvs /\ In "title" (map fst kvs) /\
  (forall d, ti_description v = Some d -> (String.length d <= 500)%nat) /\
  (forall s, ti_status v = Some s -> existsb (String.eqb s) task_statuses = true) /\
  (forall p, ti_priority v = Some p -> existsb (String.eqb p) task_priorities = true).
Proof.
  intros E now body v S. destruct body as [| | | | |kvs]; try discriminate.
  exists kvs. split; [reflexivity|]. unfold taskSchema, joi_object in S.
  apply bind_inr in S as [ti [Ht S]]. apply bind_inr in S as [de [Hd S]].
  apply bind_inr in S as [st [Hs S]]. apply bind_inr in S as [pr [Hp S]].
  apply bind_inr in S as [du [_ S]]. apply bind_inr in S as [[] [_ S]].
  injection S as <-. cbn [ti_description ti_status ti_priority].
  split; [|split; [|split]].
  - unfold joi_required in Ht. destruct (obj_get "title" kvs) eqn:G; [|discriminate].
    exact (obj_get_in _ _ _ G).
  - intros d ->. unfold joi_optional in Hd. destruct (obj_get "description" kvs); [|discriminate].
    apply bind_inr in Hd as [d' [Hd' E1]]. injection E1 as <-.
    apply bind_inr in Hd' as [s' [_ Hm]]. unfold joi_max in Hm.
    destruct (Nat.ltb 500 (String.length s')) eqn:L; [discriminate|].
    injection Hm as <-. apply Nat.ltb_ge in L. exact L.
  - intros x ->. unfold joi_optional in Hs. destruct (obj_get "status" kvs) as [j|]; [|discriminate].
    apply bind_inr in Hs as [x' [Hx E1]]. injection E1 as <-. unfold joi_valid in Hx.
    destruct j; try discriminate. destruct (existsb _ _) eqn:X; [|discriminate].
    injection Hx as <-. exact X.
  - intros x ->. unfold joi_optional in Hp. destruct (obj_get "priority" kvs) as [j|]; [|discriminate].
    apply bind_inr in Hp as [x' [Hx E1]]. injection E1 as <-. unfold joi_valid in Hx.
    destruct j; try discriminate. destruct (existsb _ _) eqn:X; [|discriminate].
    injection Hx as <-. exact X.
Qed.

Lemma errors_of_none : forall {A : Type} (f : A -> option string) l,
  (forall k, In k l -> f k = None) -> errors_of (map f l) = [].
Proof.
  intros A f l. induction l as [|k l IH]; intros H; [reflexivity|].
  simpl. rewrite (H k (or_introl eq_refl)). apply IH. intros k' Hk'. apply H. right. exact Hk'.
Qed.

(** Exactly one path of the update fails. *)
Lemma errors_of_single : forall (f : string -> option string) keys k m,
  NoDup keys -> In k keys -> f k = Some m ->
  (forall k', In k' keys -> k' <> k -> f k' = None) -> errors_of (map f keys) = [m].
Proof.
  intros f keys k m. induction keys as [|a keys IH]; intros Hnd Hin Hm Ho; [destruct Hin|].
  apply NoDup_cons_iff in Hnd as [Ha Hnd]. destruct (string_dec a k) as [->|Hne].
  - simpl. rewrite Hm. f_equal. apply errors_of_none. intros k' Hk'. apply Ho; [right; exact Hk'|].
    intros ->. contradiction.
  - destruct Hin as [->|Hin]; [contradiction|]. simpl.
    rewrite (Ho a (or_introl eq_refl) Hne). apply IH; [exact Hnd | exact Hin | exact Hm|].
    intros k' Hk' Hne'. apply Ho; [right; exact Hk' | exact Hne'].
Qed.

(** X9: a title of blanks passes Joi (which does not trim) but not the
    schema's [trim]+[required].  When nothing else fails (the [dueDate], if
    any, is still ahead at the validators' clock reads), creation passes
    [Task validation failed: title: Task title is required] to the error
    handler and the update's validators [Validation failed: title: Task title
    is required]; neither writes anything. *)
Theorem task_blank_title_rejected : forall E tasks uid tid kvs c now now_v nid v,
  taskSchema E (at_joi c) (JObj kvs) = inr v -> taskSchema E now (JObj kvs) = inr v ->
  NoDup (map fst kvs) -> js_trim (ti_title v) = "" ->
  (forall d, ti_dueDate v = Some d -> at_validate c < d /\ now_v < d) ->
  task_create E tasks uid (JObj kvs) c nid
    = (tasks, Forward "Task validation failed: title: Task title is required") /\
  task_update E tasks uid tid (JObj kvs) now now_v
    = (tasks, Forward "Validation failed: title: Task title is required").
Proof.
  intros E tasks uid tid kvs c now now_v nid v S1 S2 Hnd Ht Hdue.
  destruct (taskSchema_fields _ _ _ _ S1) as [kvs' [Eb [Hti [Hde [Hst Hpr]]]]].
  injection Eb as <-.
  assert (D : validate_description (option_map js_trim (ti_description v)) = None).
  { destruct (ti_description v) as [d|]; [|reflexivity]. simpl.
    pose proof (Hde d eq_refl). pose proof (js_trim_length d).
    destruct (Nat.ltb 500 _) eqn:L; [apply Nat.ltb_lt in L; lia | reflexivity]. }
  assert (St : forall s, ti_status v = Some s -> validate_enum "status" task_statuses s = None).
  { intros x Hx. unfold validate_enum. rewrite (Hst x Hx). reflexivity. }
  assert (Pr : forall p, ti_priority v = Some p ->
                 validate_enum "priority" task_priorities p = None).
  { intros x Hx. unfold validate_enum. rewrite (Hpr x Hx). reflexivity. }
  split.
  - unfold task_create. rewrite S1. unfold save_new_task.
    cbn [t_title t_description t_status t_priority t_dueDate]. rewrite Ht, D.
    assert (Du : validate_dueDate (at_validate c) (ti_dueDate v) = None).
    { destruct (ti_dueDate v) as [d|]; [|reflexivity]. simpl.
      destruct (Hdue d eq_refl) as [H _]. apply Z.ltb_lt in H. rewrite H. reflexivity. }
    rewrite Du.
    destruct (ti_status v) as [x|] eqn:Xs; [rewrite (St x eq_refl)|];
    (destruct (ti_priority v) as [y|] eqn:Ys; [rewrite (Pr y eq_refl)|]); reflexivity.
  - unfold task_update. rewrite S2. unfold update_validators, validation_error.
    cbn [body_keys].
    rewrite (errors_of_single (update_path_error now_v v) (map fst kvs) "title"
               "title: Task title is required" Hnd Hti); [reflexivity | |].
    + unfold update_path_error. simpl. rewrite Ht. reflexivity.
    + intros k _ Hne. unfold update_path_error.
      rewrite (proj2 (String.eqb_neq k "title") Hne).
      destruct (String.eqb k "description"); [exact D|].
      destruct (String.eqb k "status").
      { destruct (ti_status v) as [x|] eqn:Xs; [exact (St x eq_refl) | reflexivity]. }
      destruct (String.eqb k "priority").
      { destruct (ti_priority v) as [x|] eqn:Xs; [exact (Pr x eq_refl) | reflexivity]. }
      destruct (String.eqb k "dueDate"); [|reflexivity].
      destruct (ti_dueDate v) as [d|] eqn:Xd; [|reflexivity]. simpl.
      destruct (Hdue d eq_refl) as [_ H]. apply Z.ltb_lt in H. rewrite H. reflexivity.
Qed.

Lemma task_blank_title_rejected_witness :
  task_create ext0 tasks0 1 (JObj [("title", JStr "   "); ("dueDate", JNum 900)])
    (mkCreateClock 50 51 52 53) 8
    = (tasks0, Forward "Task validation failed: title: Task title is required") /\
  task_update ext0 tasks0 1 7 (JObj [("title", JStr "   "); ("dueDate", JNum 900)]) 50 51
    = (tasks0, Forward "Validation failed: title: Task title is required").
Proof.
  apply (task_blank_title_rejected ext0 tasks0 1 7 _ (mkCreateClock 50 51 52 53) 50 51 8
           (mkTaskInput "   " None None None (Some 900))).
  - reflexivity.
  - reflexivity.
  - simpl. repeat constructor; simpl; intuition discriminate.
  - reflexivity.
  - simpl. intros d H. injection H as <-. lia.
Defined.

Lemma delete_first_split : forall {A : Type} (p : A -> bool) l x,
  find p l = Some x -> exists l1 l2, l = (l1 ++ x :: l2)%list /\ delete_first p l = (l1 ++ l2)%list.
Proof.
  intros A p l x. induction l as [|a l IH]; [discriminate|]. simpl.
  destruct (p a) eqn:Pa.
  - intros H. injection H as <-. exists [], l. auto.
  - intros H. destruct (IH H) as [l1 [l2 [E1 E2]]].
    exists (a :: l1), l2. rewrite E2, E1. auto.
Qed.

(** X10: a successful DELETE removes exactly the one task with that id, owned
    by the caller, keeps the others in order, and afterwards a GET of the id
    answers 404 whoever asks (ids are unique). *)
Theorem task_delete_then_get : forall tasks uid tid tasks1 res,
  NoDup (map t_id tasks) -> task_delete tasks uid tid = (tasks1, Respond 200 res) ->
  exists l1 t l2,
    tasks = (l1 ++ t :: l2)%list /\ tasks1 = (l1 ++ l2)%list /\
    t_id t = tid /\ t_owner t = uid /\
    forall b, task_get tasks1 b tid = Respond 404 (err_body "Task not found").
Proof.
  intros tasks uid tid tasks1 res Hnd. unfold task_delete.
  destruct (find (id_owner tid uid) tasks) as [t|] eqn:F; [|discriminate].
  intros H. injection H as <- _.
  destruct (delete_first_split _ _ _ F) as [l1 [l2 [E1 E2]]].
  pose proof (find_some _ _ F) as [_ Ht]. unfold id_owner in Ht.
  apply andb_true_iff in Ht as [Hi Ho]. apply Z.eqb_eq in Hi, Ho.
  exists l1, t, l2. split; [exact E1|]. split; [exact E2|]. split; [exact Hi|].
  split; [exact Ho|]. intros b. unfold task_get. rewrite E2.
  rewrite E1, map_app in Hnd. cbn [map] in Hnd. apply NoDup_remove_2 in Hnd.
  rewrite <- map_app, Hi in Hnd.
  rewrite (no_match_absent _ tid b (absent_ids _ tid Hnd)). reflexivity.
Qed.

Lemma task_delete_then_get_witness :
  exists l1 t l2,
    tasks0 = (l1 ++ t :: l2)%list /\ fst (task_delete tasks0 1 7) = (l1 ++ l2)%list /\
    t_id t = 7 /\ t_owner t = 1 /\
    forall b, task_get (fst (task_delete tasks0 1 7)) b 7 = Respond 404 (err_body "Task not found").
Proof.
  refine (task_delete_then_get tasks0 1 7 _ _ _ eq_refl).
  simpl. constructor; [intros []|constructor].
Defined.

Lemma find_update_first : forall {A : Type} (p : A -> bool) f l,
  (forall x, p x = true -> p (f x) = true) ->
  find p (update_first p f l) = option_map f (find p l).
Proof.
  intros A p f l Hf. induction l as [|a l IH]; [reflexivity|]. simpl.
  destruct (p a) eqn:Pa; simpl.
  - rewrite (Hf a Pa). reflexivity.
  - rewrite Pa. exact IH.
Qed.

Lemma update_first_frame : forall {A : Type} (p : A -> bool) f l x,
  In x l -> p x = false -> In x (update_first p f l).
Proof.
  intros A p f l x. induction l as [|a l IH]; intros Hin Hp; [destruct Hin|]. simpl.
  destruct Hin as [<-|Hin].
  - rewrite Hp. left. reflexivity.
  - destruct (p a); right; [exact Hin | exact (IH Hin Hp)].
Qed.

Lemma update_first_length : forall {A : Type} (p : A -> bool) f l,
  length (update_first p f l) = length l.
Proof.
  intros A p f l. induction l as [|a l IH]; [reflexivity|]. simpl.
  destruct (p a); simpl; congruence.
Qed.

(** X11: update, then read back: the task a successful PUT answers with is
    what a GET of the same id by the same owner returns afterwards; the store
    keeps its size and every task the filter does not match. *)
Theorem task_update_then_get : forall E tasks uid tid body now now_v tasks1 res,
  task_update E tasks uid tid body now now_v = (tasks1, Respond 200 res) ->
  exists j,
    res = JObj [("message", JStr "Task updated successfully"); ("task", j)] /\
    task_get tasks1 uid tid = Respond 200 (JObj [("task", j)]) /\
    length tasks1 = length tasks /\
    (forall x, In x tasks -> id_owner tid uid x = false -> In x tasks1).
Proof.
  intros E tasks uid tid body now now_v tasks1 res. unfold task_update.
  destruct (taskSchema E now body) as [msg|v]; [discriminate|].
  destruct (update_validators now_v (body_keys body) v); [discriminate|].
  destruct (find (id_owner tid uid) tasks) as [t|] eqn:F; [|discriminate].
  intros H. injection H as <- <-.
  exists (task_json (apply_update v t)). split; [reflexivity|]. split.
  - unfold task_get. rewrite find_update_first, F; [reflexivity|].
    intros x. unfold id_owner, apply_update. cbn [t_id t_owner]. exact (fun h => h).
  - split; [apply update_first_length|]. intros x Hx Hp. exact (update_first_frame _ _ _ _ Hx Hp).
Qed.

Lemma task_update_then_get_witness :
  exists j,
    snd (task_update ext0 tasks0 1 7 (JObj [("title", JStr "New")]) 200 201)
      = Respond 200 (JObj [("message", JStr "Task updated successfully"); ("task", j)]) /\
    task_get (fst (task_update ext0 tasks0 1 7 (JObj [("title", JStr "New")]) 200 201)) 1 7
      = Respond 200 (JObj [("task", j)]) /\
    length (fst (task_update ext0 tasks0 1 7 (JObj [("title", JStr "New")]) 200 201)) = length tasks0 /\
    (forall x, In x tasks0 -> id_owner 7 1 x = false ->
               In x (fst (task_update ext0 tasks0 1 7 (JObj [("title", JStr "New")]) 200 201))).
Proof.
  destruct (task_update_then_get ext0 tasks0 1 7 (JObj [("title", JStr "New")]) 200 201 _ _ eq_refl)
    as [j [H1 H2]].
  exists j. split; [rewrite <- H1; reflexivity | exact H2].
Defined.

(** ** Extra: listing *)

Lemma insert_by_in : forall {A : Type} cmp (x y : A) l,
  In y (insert_by cmp x l) -> y = x \/ In y l.
Proof.
  intros A cmp x y l. induction l as [|a l IH]; simpl.
  - intros [H|[]]. left. symmetry. exact H.
  - destruct (cmp x a); simpl.
    + intros [H|H]; [left; symmetry; exact H | right; exact H].
    + intros [H|H]; [left; symmetry; exact H | right; exact H].
    + intros [H|H]; [right; left; exact H|]. destruct (IH H); auto.
Qed.

Lemma sort_by_in : forall {A : Type} cmp (y : A) l, In y (sort_by cmp l) -> In y l.
Proof.
  intros A cmp y l. induction l as [|a l IH]; simpl; [tauto|].
  intros H. destruct (insert_by_in _ _ _ _ H) as [->|H']; [left; reflexivity | right; exact (IH H')].
Qed.

Lemma skip_limit_in : forall {A : Type} skip lim (l : list A) y,
  In y (skip_limit skip lim l) -> In y l.
Proof.
  intros A skip lim l y. unfold skip_limit.
  intros Hy. rewrite <- (firstn_skipn (Z.to_nat skip) l). apply in_or_app. right.
  destruct (Z.eqb lim 0); [exact Hy|].
  rewrite <- (firstn_skipn (Z.to_nat (Z.abs lim)) (skipn (Z.to_nat skip) l)).
  apply in_or_app. left. exact Hy.
Qed.

(** X12: the listing only ever shows the caller's own tasks, and only tasks
    matching the [status] and [priority] filters that were given non-empty. *)
Theorem tasks_list_only_matching : forall tasks uid q items pg t,
  tasks_list tasks uid q = inr (items, pg) -> In t items ->
  In t tasks /\ t_owner t = uid /\
  (forall s, q_status q = Some s -> s <> "" -> t_status t = s) /\
  (forall p, q_priority q = Some p -> p <> "" -> t_priority t = p).
Proof.
  intros tasks uid q items pg t. unfold tasks_list.
  destruct (window_error _ _); [discriminate|].
  destruct (sort_key_of _) as [e|key]; cbn [bind]; [discriminate|].
  intros H. injection H as <- _. intros Ht.
  apply skip_limit_in in Ht.
  apply (Permutation_in _ (Permutation_sym (order_by_perm _ _ _))), filter_In in Ht
    as [Hin Hf].
  unfold list_filter in Hf. apply andb_true_iff in Hf as [Ho Hf].
  apply andb_true_iff in Hf as [Hs Hp]. apply Z.eqb_eq in Ho.
  split; [exact Hin|]. split; [exact Ho|]. split.
  - intros s Hq Hne. rewrite Hq in Hs. apply String.eqb_neq in Hne. rewrite Hne in Hs.
    apply String.eqb_eq. exact Hs.
  - intros p Hq Hne. rewrite Hq in Hp. apply String.eqb_neq in Hne. rewrite Hne in Hp.
    apply String.eqb_eq. exact Hp.
Qed.

Lemma tasks_list_only_matching_witness :
  In task_a [task_a; mkTask 9 "Bob task" None "pending" "medium" None 2 100 100] /\
  t_owner task_a = 1 /\
  (forall s, Some "pending" = Some s -> s <> "" -> t_status task_a = s) /\
  (forall p, @None string = Some p -> p <> "" -> t_priority task_a = p).
Proof.
  refine (tasks_list_only_matching
            [task_a; mkTask 9 "Bob task" None "pending" "medium" None 2 100 100] 1
            (mkListQuery (Some "pending") None None None (Some 1) (Some 10)) _ _ task_a eq_refl _).
  simpl. left. reflexivity.
Defined.





(** ** Extra: invariants of the stores *)

Lemma map_update_first : forall {A B : Type} (k : A -> B) (p : A -> bool) f l,
  (forall x, k (f x) = k x) -> map k (update_first p f l) = map k l.
Proof.
  intros A B k p f l Hk. induction l as [|a l IH]; [reflexivity|]. simpl.
  destruct (p a); simpl; rewrite ?Hk, ?IH; reflexivity.
Qed.

(** X15: no PUT ever changes a task's [_id], [owner] or [createdAt], nor
    adds or removes a task: the list of those triples is the same after any
    update request. *)
Theorem task_update_keeps_keys : forall E tasks uid tid body now now_v,
  map task_key (fst (task_update E tasks uid tid body now now_v)) = map task_key tasks.
Proof.
  intros E tasks uid tid body now now_v. unfold task_update.
  destruct (taskSchema E now body) as [msg|v]; [reflexivity|].
  destruct (update_validators now_v (body_keys body) v); [reflexivity|].
  destruct (find (id_owner tid uid) tasks); [|reflexivity].
  apply map_update_first. intros x. reflexivity.
Qed.

(** X16: task ids stay unique: creation with a fresh [_id], any update and
    any delete keep the [_id]s of the store pairwise distinct. *)
Theorem task_writes_keep_ids_unique : forall E tasks uid tid body c now now_v nid,
  NoDup (map t_id tasks) ->
  (~ In nid (map t_id tasks) -> NoDup (map t_id (fst (task_create E tasks uid body c nid)))) /\
  NoDup (map t_id (fst (task_update E tasks uid tid body now now_v))) /\
  NoDup (map t_id (fst (task_delete tasks uid tid))).
Proof.
  intros E tasks uid tid body c now now_v nid Hnd. split; [|split].
  - intros Hf. unfold task_create.
    destruct (taskSchema E (at_joi c) body) as [msg|v]; [exact Hnd|].
    unfold save_new_task. destruct (validation_error _ _); [exact Hnd|].
    cbn [fst]. rewrite map_app. apply NoDup_snoc; [exact Hnd | exact Hf].
  - assert (map t_id (fst (task_update E tasks uid tid body now now_v)) = map t_id tasks) as ->;
      [|exact Hnd].
    pose proof (task_update_keeps_keys E tasks uid tid body now now_v) as K.
    apply (f_equal (map (fun k => fst (fst k)))) in K. rewrite !map_map in K. exact K.
  - unfold task_delete. destruct (find (id_owner tid uid) tasks) as [t|] eqn:F; [|exact Hnd].
    destruct (delete_first_split _ _ _ F) as [l1 [l2 [E1 E2]]]. cbn [fst]. rewrite E2.
    rewrite E1, map_app in Hnd. cbn [map] in Hnd. rewrite map_app.
    exact (NoDup_remove_1 _ _ _ Hnd).
Qed.

Lemma task_writes_keep_ids_unique_witness :
  (~ In 8 (map t_id tasks0) ->
   NoDup (map t_id (fst (task_create ext0 tasks0 1 (JObj [("title", JStr "Call Bob")])
                           (mkCreateClock 50 51 52 53) 8)))) /\
  NoDup (map t_id (fst (task_update ext0 tasks0 1 7 (JObj [("title", JStr "Call Bob")]) 50 51))) /\
  NoDup (map t_id (fst (task_delete tasks0 1 7))).
Proof.
  apply task_writes_keep_ids_unique. simpl. constructor; [intros []|constructor].
Defined.

Lemma save_tokens_core : forall users v,
  map user_core (save_tokens users v) = map user_core users.
Proof.
  intros users v. unfold save_tokens. rewrite map_map. apply map_ext.
  intros x. destruct (Z.eqb (u_id x) (u_id v)); reflexivity.
Qed.

(** X17: logging in and logging out only ever touch sessions: whatever the
    request, the id, name, e-mail, password hash, role and creation time of
    every stored user are the same afterwards, and no user is added or
    removed. *)
Theorem login_logout_touch_only_tokens : forall E users b h now,
  map user_core (fst (login E users b now)) = map user_core users /\
  map user_core (fst (logout E users h now)) = map user_core users.
Proof.
  intros E users b h now. split.
  - unfold login. destruct (loginSchema E b) as [msg|[email password]]; [reflexivity|].
    destruct (findByEmail users email) as [u|]; [|reflexivity].
    destruct (negb (comparePassword E u password)); [reflexivity|].
    apply save_tokens_core.
  - unfold logout, protected. destruct (auth E users h now) as [u t|s bd]; [|reflexivity].
    apply save_tokens_core.
Qed.
